(** * asammdf.gui.widgets.viewbox: the plot viewport and its context menu

    A shallow embedding of [ViewBoxMenu] and [ViewBoxWithCursor]
    (src/asammdf/gui/widgets/viewbox.py) and the properties of its
    handlers.

    - A view box is a record of the attributes the class owns; every
      method is a function from the record (and the event) to the new
      record (and the event with its accepted flag).  A method that can
      raise returns how it ended along with the record.
    - What is inherited from pyqtgraph's [ViewBox] is the interface
      [ViewBoxBase]: the entries of [self.state] that are read, the
      coordinate maps, and [_resetTarget], [translateBy], [scaleBy] and
      [setXRange] as transformers of the inherited state.  The properties
      hold for every implementation of it; [Plain] is a small one to run
      the handlers on.
    - [signal.emit] appends to a log.  The one connection made in this
      file, [sigStateChanged] to [ViewBoxMenu.viewStateChanged], is run at
      the emission.
    - Python floats are an interface as well ([PyFloat]; [PyPow] for the
      [**] of numpy arrays, which never raises; [PyFloatPow] for the [**]
      of two Python floats, which raises [OverflowError] on overflow),
      with the reals and IEEE 754 binary64 (without [**]) as
      implementations.
*)

From Stdlib Require Import ZArith List String Ascii Bool Lia.
From Stdlib Require Import Reals Lra Floats.
Import ListNotations.

Set Implicit Arguments.
Local Open Scope Z_scope.

(* ================================================================== *)
(** * Python values *)

Module Py.

(** The Python objects a caller can hand to [setMouseMode].  [float]
    arguments are left out: [2.0 == 2] holds in Python, so they would
    behave as the corresponding [int]. *)
Inductive pyobj : Type :=
| PyNone
| PyBool (b : bool)
| PyInt (z : Z)
| PyStr (s : string).

(** [bool] is a subclass of [int]: [True == 1] and [False == 0]. *)
Definition int_value (o : pyobj) : option Z :=
  match o with
  | PyBool b => Some (Z.b2z b)
  | PyInt z => Some z
  | PyNone | PyStr _ => None
  end.

(** Python's [==] on these objects. *)
Definition eqb (a b : pyobj) : bool :=
  match a, b with
  | PyNone, PyNone => true
  | PyStr s, PyStr t => String.eqb s t
  | _, _ =>
      match int_value a, int_value b with
      | Some x, Some y => Z.eqb x y
      | _, _ => false
      end
  end.

(** [x in xs] for a list: some element compares equal. *)
Definition contains (x : pyobj) (xs : list pyobj) : bool :=
  existsb (eqb x) xs.

(** [str.lower()] on one character.  Only the ASCII capitals are mapped:
    the results are compared with the ASCII words "rect", "pan" and
    "cursor", and no character outside A-Z lowercases to a letter of
    these words. *)
Definition lower_ascii (c : ascii) : ascii :=
  let n := nat_of_ascii c in
  if (Nat.leb 65 n && Nat.leb n 90)%bool then ascii_of_nat (n + 32) else c.

Fixpoint lower (s : string) : string :=
  match s with
  | EmptyString => EmptyString
  | String c r => String (lower_ascii c) (lower r)
  end.

(** [raise Exception(msg)], and the [OverflowError] Python's float
    arithmetic raises. *)
Inductive exn : Type :=
| Exception (msg : string)
| OverflowError (msg : string).

(** How a call ends. *)
Inductive outcome : Type :=
| Returned
| Raised (e : exn).

End Py.

Import Py.

(* ================================================================== *)
(** * Qt constants *)

Module Qt.

(** [Qt.KeyboardModifier] and [Qt.Key] values. *)
Definition ShiftModifier : Z := 0x02000000.
Definition AltModifier : Z := 0x08000000.
Definition Key_Shift : Z := 0x01000020.
Definition Key_Alt : Z := 0x01000023.

(** [QKeyCombination(modifiers, key).toCombined()]. *)
Definition toCombined (modifiers key : Z) : Z := Z.lor modifiers key.

(** [Qt.MouseButton] values. *)
Definition LeftButton : Z := 1.
Definition RightButton : Z := 2.
Definition MiddleButton : Z := 4.

End Qt.

(* ================================================================== *)
(** * Numbers

    The arithmetic of Python's [float] and of numpy's [float64] is an
    interface, so that the handlers read the same over binary64 and over
    the reals. *)

Class PyFloat (F : Type) : Type := {
  of_int : Z -> F;          (* int operand promoted to float *)
  fadd : F -> F -> F;
  fsub : F -> F -> F;
  fmul : F -> F -> F;
  fdiv : F -> F -> F;
  fneg : F -> F
}.

(** The [**] operator of numpy arrays: it never raises (an overflow gives
    [inf] and a warning). *)
Class PyPow (F : Type) : Type := {
  fpow : F -> F -> F
}.

(** The [**] operator of two Python floats: [None] when it raises
    [OverflowError], which it does when the result overflows. *)
Class PyFloatPow (F : Type) : Type := {
  float_pow : F -> F -> option F
}.

(** The decimal literal [n/d], e.g. [0.15] is [lit 15 100]: one correctly
    rounded division of two exactly represented integers. *)
Definition lit {F} `{PyFloat F} (n d : Z) : F := fdiv (of_int n) (of_int d).

(** [True] and [False] stored into a [float64] array. *)
Definition b2f {F} `{PyFloat F} (b : bool) : F := of_int (Z.b2z b).

(** ** The reals: exact arithmetic *)

#[export] Instance R_float : PyFloat R := {
  of_int := IZR;
  fadd := Rplus;
  fsub := Rminus;
  fmul := Rmult;
  fdiv := Rdiv;
  fneg := Ropp
}.

(** [Rpower x y] is [exp (y * ln x)]; the handlers only raise the positive
    bases 1, 1.02 and [mask*0.02 + 1]. *)
#[export] Instance R_pow : PyPow R := {
  fpow := Rpower
}.

(** The largest binary64 number, [(2 - 2^-52) * 2^1023]. *)
Definition max_float : R := ((2 - / 2 ^ 52) * 2 ^ 1023)%R.

(** Python's [**] over the reals: the exact power, or [OverflowError] when
    it is beyond the largest float.  The handlers only raise the base
    1.02 with it. *)
#[export] Instance R_float_pow : PyFloatPow R := {
  float_pow := fun x y =>
    if Rle_dec (Rpower x y) max_float then Some (Rpower x y) else None
}.

(** ** IEEE 754 binary64: what CPython and numpy compute with *)

Definition binary64_of_int (z : Z) : float :=
  match z with
  | Z0 => PrimFloat.zero
  | Zpos _ => PrimFloat.of_uint63 (Uint63.of_Z z)
  | Zneg p => PrimFloat.opp (PrimFloat.of_uint63 (Uint63.of_Z (Zpos p)))
  end.

Definition binary64 : PyFloat float := {|
  of_int := binary64_of_int;
  fadd := PrimFloat.add;
  fsub := PrimFloat.sub;
  fmul := PrimFloat.mul;
  fdiv := PrimFloat.div;
  fneg := PrimFloat.opp
|}.

(* ================================================================== *)
(** * Points *)

Section Points.
Context {F : Type} `{PyFloat F}.

(** [QPointF] / [pg.Point]: the pair (x, y). *)
Definition point : Type := (F * F)%type.

Definition psub (p q : point) : point :=
  (fsub (fst p) (fst q), fsub (snd p) (snd q)).

(** [Point * Point], component by component (a scalar or array operand is
    first made a [Point]). *)
Definition pmul (p q : point) : point :=
  (fmul (fst p) (fst q), fmul (snd p) (snd q)).

End Points.

Arguments point F : clear implicits.

(* ================================================================== *)
(** * The inherited viewport

    What [ViewBoxWithCursor] uses of [pg.ViewBox] and of the Qt scene: the
    entries of [self.state] it reads, the coordinate maps, and the four
    methods through which it changes the visible range.  [V] is the state
    of the base class, [T] is [QTransform].  The four methods are taken
    to return: what pyqtgraph does in them, and whether it rejects an
    argument, is not in the source of this module. *)

Class ViewBoxBase (F V T : Type) : Type := {
  state_mouseEnabled : V -> bool * bool;     (* state["mouseEnabled"] *)
  state_aspectLocked : V -> option F;        (* [None] is [False], else the ratio *)
  state_wheelScaleFactor : V -> F;           (* state["wheelScaleFactor"] *)
  viewRange : V -> (F * F) * (F * F);        (* [[x0, x1], [y0, y1]] *)
  childGroup_transform : V -> T;             (* self.childGroup.transform() *)
  invertQTransform : T -> T;                 (* fn.invertQTransform *)
  QTransform_map : T -> point F -> point F;  (* QTransform.map(point) *)
  mapSceneToView : V -> point F -> point F;
  resetTarget : V -> V;                      (* self._resetTarget() *)
  translateBy : option F -> option F -> V -> V;             (* x=, y= *)
  scaleBy : option F -> option F -> point F -> V -> V;      (* x, y, center *)
  setXRange : F -> F -> F -> V -> V                         (* min, max, padding *)
}.

(** The axis argument of the handlers: 0 or 1. *)
Inductive Axis : Type :=
| XAxis
| YAxis.

(* ================================================================== *)
(** * Events *)

Section Events.
Context {F : Type}.

(** [QKeyEvent]: [ev.keyCombination().toCombined()] and the accepted flag. *)
Record KeyEvent : Type := {
  ke_combined : Z;
  ke_accepted : bool
}.

(** The mouse-press event the scene delivers. *)
Record MousePressEvent : Type := {
  mp_scenePos : point F;
  mp_accepted : bool
}.

(** pyqtgraph's [MouseDragEvent]. *)
Record MouseDragEvent : Type := {
  de_button : Z;
  de_scenePos : point F;
  de_lastScenePos : point F;
  de_screenPos : point F;
  de_lastScreenPos : point F;
  de_buttonDownPos : Z -> point F;
  de_isFinish : bool;
  de_accepted : bool
}.

(** The wheel event: [delta()] is an integer, 120 per notch. *)
Record WheelEvent : Type := {
  we_delta : Z;
  we_pos : point F;
  we_accepted : bool
}.

Definition ke_ignore (ev : KeyEvent) : KeyEvent :=
  {| ke_combined := ke_combined ev; ke_accepted := false |}.

Definition mp_ignore (ev : MousePressEvent) : MousePressEvent :=
  {| mp_scenePos := mp_scenePos ev; mp_accepted := false |}.

Definition de_accept (ev : MouseDragEvent) : MouseDragEvent :=
  {| de_button := de_button ev;
     de_scenePos := de_scenePos ev;
     de_lastScenePos := de_lastScenePos ev;
     de_screenPos := de_screenPos ev;
     de_lastScreenPos := de_lastScreenPos ev;
     de_buttonDownPos := de_buttonDownPos ev;
     de_isFinish := de_isFinish ev;
     de_accepted := true |}.

Definition we_accept (ev : WheelEvent) : WheelEvent :=
  {| we_delta := we_delta ev; we_pos := we_pos ev; we_accepted := true |}.

(** The payload of the zoom signals: [(self.zoom_start, end, self.zoom)]. *)
Definition zoom_payload : Type := (point F * point F * option Z)%type.

(** One [emit] call: the signal and its argument. *)
Inductive signal : Type :=
| sigStateChanged
| sigCursorMoved (ev : MouseDragEvent)
| sigZoomChanged (payload : option zoom_payload)
| sigZoomFinished (payload : zoom_payload)
| sigRangeChangedManually (mask : bool * bool).

(** [self.cursor], when set: the sibling cursor line. *)
Record Cursor : Type := {
  cursor_isVisible : bool;
  cursor_value : F
}.

End Events.

Arguments MousePressEvent F : clear implicits.
Arguments MouseDragEvent F : clear implicits.
Arguments WheelEvent F : clear implicits.
Arguments zoom_payload F : clear implicits.
Arguments signal F : clear implicits.
Arguments Cursor F : clear implicits.

(* ================================================================== *)
(** * ViewBoxMenu *)

(** The three checkable actions [pan, cursor, zoom] of [self.mouseModes]
    (their [isChecked()]) and the [valid] flag. *)
Record ViewBoxMenu : Type := {
  mouseModes : list bool;
  valid : bool
}.

(** [self.mouseModes[i].setChecked(True)].  The three actions were put in
    one [QActionGroup], which is exclusive: checking one action unchecks
    the others of the group. *)
Definition setChecked_True (i : nat) (actions : list bool) : list bool :=
  map (fun j => Nat.eqb j i) (seq 0 (List.length actions)).

(* ================================================================== *)
(** * ViewBoxWithCursor *)

(** The instance: the inherited state [base], [self.state["mouseMode"]]
    (the one entry of [self.state] this class writes), the attributes set
    in [__init__], the value [self._settings] returns for
    "zoom_x_center_on_cursor", the menu, and the log of emitted signals in
    the order of emission. *)
Record ViewBoxWithCursor (F V : Type) : Type := {
  base : V;
  mouseMode : pyobj;
  zoom : option Z;
  zoom_start : option (point F);
  cursor : option (Cursor F);
  zoom_x_center_on_cursor : bool;
  menu : ViewBoxMenu;
  emitted : list (signal F)
}.

Module ViewBox.

Definition PanMode : pyobj := PyInt 3.
Definition CursorMode : pyobj := PyInt 2.
Definition RectMode : pyobj := PyInt 1.

Definition X_zoom : Z := Qt.toCombined Qt.ShiftModifier Qt.Key_Shift.
Definition Y_zoom : Z := Qt.toCombined Qt.AltModifier Qt.Key_Alt.
Definition XY_zoom : Z * Z :=
  (Qt.toCombined (Z.lor Qt.ShiftModifier Qt.AltModifier) Qt.Key_Alt,
   Qt.toCombined (Z.lor Qt.ShiftModifier Qt.AltModifier) Qt.Key_Shift).

(** [self.zoom in (X_zoom, Y_zoom, *XY_zoom)]. *)
Definition zoom_recognized (z : option Z) : bool :=
  match z with
  | None => false
  | Some k => existsb (Z.eqb k) [X_zoom; Y_zoom; fst XY_zoom; snd XY_zoom]
  end.

Definition dquote : string := String (ascii_of_nat 34) EmptyString.

Definition setMouseMode_message : string :=
  "Mode must be ViewBoxWithCursor.PanMode, ViewBoxWithCursor.RectMode or ViewBoxWithCursor.CursorMode".

(** What [OverflowError] says when [**] overflows. *)
Definition overflow_message : string := "(34, 'Numerical result out of range')".

Definition setLeftButtonAction_message (mode : string) : string :=
  ("graphicsItems:ViewBox:setLeftButtonAction: unknown mode = " ++ mode
   ++ " (Options are " ++ dquote ++ "pan" ++ dquote ++ ", " ++ dquote
   ++ "cursor" ++ dquote ++ " and " ++ dquote ++ "rect" ++ dquote ++ ")")%string.

Section Methods.
Context {F V T : Type} {PF : PyFloat F} {PP : PyPow F} {PFP : PyFloatPow F}
        {VB : ViewBoxBase F V T}.

Local Abbreviation vbox := (ViewBoxWithCursor F V).

(** ** Attribute assignment *)

Definition set_base (b : V) (vb : vbox) : vbox :=
  {| base := b; mouseMode := mouseMode vb; zoom := zoom vb;
     zoom_start := zoom_start vb; cursor := cursor vb;
     zoom_x_center_on_cursor := zoom_x_center_on_cursor vb;
     menu := menu vb; emitted := emitted vb |}.

Definition set_mouseMode (m : pyobj) (vb : vbox) : vbox :=
  {| base := base vb; mouseMode := m; zoom := zoom vb;
     zoom_start := zoom_start vb; cursor := cursor vb;
     zoom_x_center_on_cursor := zoom_x_center_on_cursor vb;
     menu := menu vb; emitted := emitted vb |}.

Definition set_zoom (z : option Z) (vb : vbox) : vbox :=
  {| base := base vb; mouseMode := mouseMode vb; zoom := z;
     zoom_start := zoom_start vb; cursor := cursor vb;
     zoom_x_center_on_cursor := zoom_x_center_on_cursor vb;
     menu := menu vb; emitted := emitted vb |}.

Definition set_zoom_start (p : option (point F)) (vb : vbox) : vbox :=
  {| base := base vb; mouseMode := mouseMode vb; zoom := zoom vb;
     zoom_start := p; cursor := cursor vb;
     zoom_x_center_on_cursor := zoom_x_center_on_cursor vb;
     menu := menu vb; emitted := emitted vb |}.

Definition set_menu (m : ViewBoxMenu) (vb : vbox) : vbox :=
  {| base := base vb; mouseMode := mouseMode vb; zoom := zoom vb;
     zoom_start := zoom_start vb; cursor := cursor vb;
     zoom_x_center_on_cursor := zoom_x_center_on_cursor vb;
     menu := m; emitted := emitted vb |}.

(** [signal.emit(arg)], as far as this file goes: the emission is logged.
    The one slot the file connects itself, [ViewBoxMenu.viewStateChanged]
    on [sigStateChanged], is run by [emit_sigStateChanged] below. *)
Definition emit (s : signal F) (vb : vbox) : vbox :=
  {| base := base vb; mouseMode := mouseMode vb; zoom := zoom vb;
     zoom_start := zoom_start vb; cursor := cursor vb;
     zoom_x_center_on_cursor := zoom_x_center_on_cursor vb;
     menu := menu vb; emitted := emitted vb ++ [s] |}.

(** ** ViewBoxMenu *)

(** [ViewBoxMenu.updateState]. *)
Definition updateState (vb : vbox) : vbox :=
  let actions := mouseModes (menu vb) in
  let actions :=
    if Py.eqb (mouseMode vb) PanMode then setChecked_True 0 actions
    else if Py.eqb (mouseMode vb) CursorMode then setChecked_True 1 actions
    else setChecked_True 2 actions in
  set_menu {| mouseModes := actions; valid := true |} vb.

(** [ViewBoxMenu.viewStateChanged]. *)
Definition viewStateChanged (vb : vbox) : vbox :=
  updateState
    (set_menu {| mouseModes := mouseModes (menu vb); valid := false |} vb).

(** [ViewBoxMenu.popup], up to the call of [QMenu.popup]. *)
Definition popup (vb : vbox) : vbox :=
  if negb (valid (menu vb)) then updateState vb else vb.

(** [self.sigStateChanged.emit(self)]: the emission, then the menu's slot
    connected in [ViewBoxMenu.__init__]. *)
Definition emit_sigStateChanged (vb : vbox) : vbox :=
  viewStateChanged (emit sigStateChanged vb).

(** ** Mode setters *)

(** [ViewBoxWithCursor.setMouseMode]. *)
Definition setMouseMode (mode : pyobj) (vb : vbox) : outcome * vbox :=
  if negb (Py.contains mode [PanMode; CursorMode; RectMode]) then
    (Raised (Exception setMouseMode_message), vb)
  else
    (Returned, emit_sigStateChanged (set_mouseMode mode vb)).

(** [ViewBoxWithCursor.setLeftButtonAction]. *)
Definition setLeftButtonAction (mode : string) (vb : vbox) : outcome * vbox :=
  if String.eqb (lower mode) "rect" then setMouseMode RectMode vb
  else if String.eqb (lower mode) "pan" then setMouseMode PanMode vb
  else if String.eqb (lower mode) "cursor" then setMouseMode CursorMode vb
  else (Raised (Exception (setLeftButtonAction_message mode)), vb).

(** [ViewBoxMenu.set_mouse_mode]. *)
Definition set_mouse_mode (mode : string) (vb : vbox) : outcome * vbox :=
  setLeftButtonAction mode vb.

(** [ViewBoxWithCursor.__init__] after [super().__init__], which left the
    base state [b] and the mode [m]; the settings store answers [center].
    The menu is built with three unchecked actions and refreshed once. *)
Definition init (b : V) (m : pyobj) (center : bool) : vbox :=
  updateState
    {| base := b; mouseMode := m; zoom := None; zoom_start := None;
       cursor := None; zoom_x_center_on_cursor := center;
       menu := {| mouseModes := [false; false; false]; valid := false |};
       emitted := [] |}.

(** ** Keyboard and mouse press *)

(** [ViewBoxWithCursor.keyPressEvent]. *)
Definition keyPressEvent (vb : vbox) (ev : KeyEvent) : vbox * KeyEvent :=
  let vb :=
    match zoom_start vb with
    | None => set_zoom (Some (ke_combined ev)) vb
    | Some _ => vb
    end in
  (vb, ke_ignore ev).

(** [ViewBoxWithCursor.keyReleaseEvent]. *)
Definition keyReleaseEvent (vb : vbox) (ev : KeyEvent) : vbox * KeyEvent :=
  let vb :=
    match zoom_start vb with
    | None => set_zoom None vb
    | Some _ => vb
    end in
  (vb, ke_ignore ev).

(** [ViewBoxWithCursor.mousePressEvent]. *)
Definition mousePressEvent (vb : vbox) (ev : MousePressEvent F)
  : vbox * MousePressEvent F :=
  let vb :=
    if (Py.eqb (mouseMode vb) CursorMode && zoom_recognized (zoom vb))%bool
    then set_zoom_start (Some (mapSceneToView (base vb) (mp_scenePos ev))) vb
    else vb in
  (vb, mp_ignore ev).

(** ** Drag *)

(** [mask[1 - axis] = 0.0].  The mask holds 1.0 and 0.0 only (it is the
    float copy of two bools, with entries cleared); it is kept as two
    bools, [true] for 1.0, and [b2f] gives the float where the code
    computes with it.  [mask[i] == 1] is then the bool itself. *)
Definition mask_clear_other (axis : Axis) (mask : bool * bool) : bool * bool :=
  match axis with
  | XAxis => (fst mask, false)     (* mask[1] = 0.0 *)
  | YAxis => (false, snd mask)     (* mask[0] = 0.0 *)
  end.

Definition mask_point (mask : bool * bool) : point F :=
  (b2f (fst mask), b2f (snd mask)).

(** [tr.map(dif * mask) - tr.map(pg.Point(0, 0))] for the inverted child
    transform [tr]. *)
Definition drag_offset (b : V) (dif : point F) (mask : bool * bool) : point F :=
  let tr := invertQTransform (childGroup_transform b) in
  psub (QTransform_map tr (pmul dif (mask_point mask)))
       (QTransform_map tr (of_int 0, of_int 0)).

(** [ViewBoxWithCursor.mouseDragEvent]. *)
Definition mouseDragEvent (vb : vbox) (ev : MouseDragEvent F)
    (axis : option Axis) (ignore_cursor : bool) : vbox * MouseDragEvent F :=
  let ev := de_accept ev in
  let pos := de_scenePos ev in
  let dif := psub pos (de_lastScenePos ev) in
  let dif := pmul dif (of_int (-1), of_int (-1)) in
  let mouseEnabled := state_mouseEnabled (base vb) in
  let mask :=
    match axis with
    | Some a => mask_clear_other a mouseEnabled
    | None => mouseEnabled
    end in
  if (Py.eqb (mouseMode vb) CursorMode && negb ignore_cursor)%bool then
    if Z.eqb (de_button ev) Qt.LeftButton then
      let vb := emit (sigCursorMoved ev) vb in
      match zoom_start vb with
      | Some start =>
          let end_ := mapSceneToView (base vb) (de_scenePos ev) in
          let vb := emit (sigZoomChanged (Some (start, end_, zoom vb))) vb in
          if de_isFinish ev then
            let vb := emit (sigZoomFinished (start, end_, zoom vb)) vb in
            let vb := set_zoom_start None vb in
            (emit (sigZoomChanged None) vb, ev)
          else (vb, ev)
      | None => (vb, ev)
      end
    else
      let tr := drag_offset (base vb) dif mask in
      let x := if fst mask then Some (fst tr) else None in
      let vb := set_base (resetTarget (base vb)) vb in
      let vb :=
        match x with
        | Some _ => set_base (translateBy x (Some (of_int 0)) (base vb)) vb
        | None => vb
        end in
      (emit (sigRangeChangedManually (state_mouseEnabled (base vb))) vb, ev)
  else
    if (Z.eqb (de_button ev) Qt.LeftButton
        || Z.eqb (de_button ev) Qt.MiddleButton)%bool then
      let tr := drag_offset (base vb) dif mask in
      let x := if fst mask then Some (fst tr) else None in
      let y := if snd mask then Some (snd tr) else None in
      let vb := set_base (resetTarget (base vb)) vb in
      let vb :=
        match x, y with
        | None, None => vb
        | _, _ => set_base (translateBy x y (base vb)) vb
        end in
      (emit (sigRangeChangedManually (state_mouseEnabled (base vb))) vb, ev)
    else if negb (Z.eqb (Z.land (de_button ev) Qt.RightButton) 0) then
      let mask :=
        match state_aspectLocked (base vb) with
        | Some _ => (false, snd mask)          (* mask[0] = 0 *)
        | None => mask
        end in
      let dif := psub (de_screenPos ev) (de_lastScreenPos ev) in
      let dif := (fmul (fst dif) (of_int (-1)), snd dif) in
      let s :=
        (fpow (fadd (fmul (b2f (fst mask)) (lit 2 100)) (of_int 1)) (fst dif),
         fpow (fadd (fmul (b2f (snd mask)) (lit 2 100)) (of_int 1)) (snd dif)) in
      let tr := invertQTransform (childGroup_transform (base vb)) in
      let x := if fst mouseEnabled then Some (fst s) else None in
      let y := if snd mouseEnabled then Some (snd s) else None in
      let center := QTransform_map tr (de_buttonDownPos ev Qt.RightButton) in
      let vb := set_base (resetTarget (base vb)) vb in
      let vb := set_base (scaleBy x y center (base vb)) vb in
      (emit (sigRangeChangedManually (state_mouseEnabled (base vb))) vb, ev)
    else (vb, ev).

(** ** Wheel *)

(** The axis mask of [wheelEvent] (the first statement of the method). *)
Definition wheel_mask (vb : vbox) (axis : option Axis) : bool * bool :=
  if Py.eqb (mouseMode vb) CursorMode then (true, false)
  else
    match axis with
    | Some XAxis => (fst (state_mouseEnabled (base vb)), false)
    | Some YAxis => (false, snd (state_mouseEnabled (base vb)))
    | None => state_mouseEnabled (base vb)
    end.

(** The two bounds [wheelEvent] hands to [setXRange] when it centres on
    the cursor: [x_range] is the current x range, [d] is [ev.delta()],
    [pos] is [self.cursor.value()]. *)
Definition centered_x_range (x_range : F * F) (d : Z) (pos : F) : F * F :=
  let delta := fsub (snd x_range) (fst x_range) in
  let event_delta := fdiv (fmul (of_int d) (lit 15 100)) (of_int 120) in
  let step := fmul (fneg delta) event_delta in
  let x_range := (fsub pos (fdiv delta (of_int 2)),
                  fadd pos (fdiv delta (of_int 2))) in
  (fsub (fst x_range) step, fadd (snd x_range) step).

(** [self.cursor is not None and self.cursor.isVisible()], giving the
    cursor. *)
Definition visible_cursor (vb : vbox) : option (Cursor F) :=
  match cursor vb with
  | Some c => if cursor_isVisible c then Some c else None
  | None => None
  end.

(** [ViewBoxWithCursor.wheelEvent].  The one statement that can raise is
    [1.02 ** (ev.delta() * wheelScaleFactor)], a power of two Python
    floats: it is evaluated before [_resetTarget], [scaleBy], [ev.accept()]
    and the emission, so when it raises the view box and the event are
    as they were. *)
Definition wheelEvent (vb : vbox) (ev : WheelEvent F) (axis : option Axis)
  : outcome * (vbox * WheelEvent F) :=
  let mask := wheel_mask vb axis in
  match (if zoom_x_center_on_cursor vb then visible_cursor vb else None) with
  | Some c =>
      let r := centered_x_range (fst (viewRange (base vb))) (we_delta ev)
                                (cursor_value c) in
      let vb := set_base (setXRange (fst r) (snd r) (of_int 0) (base vb)) vb in
      (Returned, (emit (sigRangeChangedManually mask) vb, we_accept ev))
  | None =>
      let pos := we_pos ev in
      match float_pow (lit 102 100)
                      (fmul (of_int (we_delta ev))
                            (state_wheelScaleFactor (base vb))) with
      | None => (Raised (OverflowError overflow_message), (vb, ev))
      | Some s =>
          let sx := if fst mask then Some s else None in
          let sy := if snd mask then Some s else None in
          let center :=
            QTransform_map (invertQTransform (childGroup_transform (base vb)))
                           pos in
          let vb := set_base (resetTarget (base vb)) vb in
          let vb := set_base (scaleBy sx sy center (base vb)) vb in
          (Returned, (emit (sigRangeChangedManually mask) vb, we_accept ev))
      end
  end.

(** ** Event sequences *)

(** The events the host delivers to the key and mouse handlers. *)
Inductive input : Type :=
| KeyPress (ev : KeyEvent)
| KeyRelease (ev : KeyEvent)
| MousePress (ev : MousePressEvent F)
| MouseDrag (ev : MouseDragEvent F) (axis : option Axis) (ignore_cursor : bool).

Definition handle (vb : vbox) (i : input) : vbox :=
  match i with
  | KeyPress ev => fst (keyPressEvent vb ev)
  | KeyRelease ev => fst (keyReleaseEvent vb ev)
  | MousePress ev => fst (mousePressEvent vb ev)
  | MouseDrag ev axis ignore_cursor => fst (mouseDragEvent vb ev axis ignore_cursor)
  end.

Definition run (vb : vbox) (evs : list input) : vbox :=
  fold_left handle evs vb.

End Methods.
End ViewBox.

(* ================================================================== *)
(** * A plain viewport

    A small implementation of [ViewBoxBase] to run the handlers on: the
    view shows the data rectangle [pv_range] at scale one, so the child
    transform is the translation that moves the rectangle's origin to the
    scene origin. *)

Module Plain.

Section View.
Context {F : Type} {PF : PyFloat F}.

Record view : Type := {
  pv_mouseEnabled : bool * bool;
  pv_aspectLocked : option F;
  pv_wheelScaleFactor : F;
  pv_range : (F * F) * (F * F);
  pv_target : bool                       (* an auto-range target is pending *)
}.

Definition with_range (r : (F * F) * (F * F)) (v : view) : view :=
  {| pv_mouseEnabled := pv_mouseEnabled v;
     pv_aspectLocked := pv_aspectLocked v;
     pv_wheelScaleFactor := pv_wheelScaleFactor v;
     pv_range := r;
     pv_target := pv_target v |}.

Definition clear_target (v : view) : view :=
  {| pv_mouseEnabled := pv_mouseEnabled v;
     pv_aspectLocked := pv_aspectLocked v;
     pv_wheelScaleFactor := pv_wheelScaleFactor v;
     pv_range := pv_range v;
     pv_target := false |}.

(** A translation, as the vector it adds. *)
Definition transform : Type := point F.

Definition origin (v : view) : point F :=
  (fst (fst (pv_range v)), fst (snd (pv_range v))).

Definition to_scene (v : view) : transform :=
  (fneg (fst (origin v)), fneg (snd (origin v))).

Definition inverted (t : transform) : transform :=
  (fneg (fst t), fneg (snd t)).

Definition apply (t : transform) (p : point F) : point F :=
  (fadd (fst p) (fst t), fadd (snd p) (snd t)).

Definition or_else (o : option F) (d : F) : F :=
  match o with
  | Some x => x
  | None => d
  end.

Definition shift (x y : option F) (v : view) : view :=
  let dx := or_else x (of_int 0) in
  let dy := or_else y (of_int 0) in
  let '((x0, x1), (y0, y1)) := pv_range v in
  with_range ((fadd x0 dx, fadd x1 dx), (fadd y0 dy, fadd y1 dy)) v.

(** Scale the interval [(a, b)] by [s] about [c]. *)
Definition scale_about (s c : F) (ab : F * F) : F * F :=
  (fadd c (fmul (fsub (fst ab) c) s), fadd c (fmul (fsub (snd ab) c) s)).

Definition scale (x y : option F) (center : point F) (v : view) : view :=
  let sx := or_else x (of_int 1) in
  let sy := or_else y (of_int 1) in
  with_range (scale_about sx (fst center) (fst (pv_range v)),
              scale_about sy (snd center) (snd (pv_range v))) v.

(** The x range becomes [lo, hi].  The padding is not looked at: the one
    caller passes 0, which asks for the bounds as given. *)
Definition set_x (lo hi padding : F) (v : view) : view :=
  with_range ((lo, hi), snd (pv_range v)) v.

#[global] Instance plain_base : ViewBoxBase F view transform := {
  state_mouseEnabled := pv_mouseEnabled;
  state_aspectLocked := pv_aspectLocked;
  state_wheelScaleFactor := pv_wheelScaleFactor;
  viewRange := pv_range;
  childGroup_transform := to_scene;
  invertQTransform := inverted;
  QTransform_map := apply;
  mapSceneToView := fun v p => apply (inverted (to_scene v)) p;
  resetTarget := clear_target;
  translateBy := shift;
  scaleBy := scale;
  setXRange := set_x
}.

End View.

Arguments view F : clear implicits.

(** A viewport over the reals showing [0, 10] x [0, 10], both axes
    enabled, aspect not locked, the default wheel factor -1/8. *)
Definition v0 : view R :=
  {| pv_mouseEnabled := (true, true);
     pv_aspectLocked := None;
     pv_wheelScaleFactor := (-1 / 8)%R;
     pv_range := ((0, 10), (0, 10))%R;
     pv_target := true |}.


(** Freshly constructed view boxes over [v0], in Pan and in Cursor mode. *)
Definition pan_box : ViewBoxWithCursor R (view R) :=
  ViewBox.init v0 ViewBox.PanMode true.

Definition cursor_box : ViewBoxWithCursor R (view R) :=
  ViewBox.init v0 ViewBox.CursorMode true.


(** [cursor_box] with a visible cursor at x = 3. *)
Definition cursor_box_with_cursor : ViewBoxWithCursor R (view R) :=
  {| base := v0; mouseMode := ViewBox.CursorMode; zoom := None;
     zoom_start := None;
     cursor := Some {| cursor_isVisible := true; cursor_value := 3%R |};
     zoom_x_center_on_cursor := true;
     menu := menu cursor_box; emitted := [] |}.

(** Events. *)
Definition shift_press : KeyEvent :=
  {| ke_combined := ViewBox.X_zoom; ke_accepted := true |}.

Definition shift_release : KeyEvent :=
  {| ke_combined := Qt.Key_Shift; ke_accepted := true |}.

Definition press_at (x y : R) : MousePressEvent R :=
  {| mp_scenePos := (x, y); mp_accepted := true |}.

Definition drag (button : Z) (from to : point R) (finish : bool)
  : MouseDragEvent R :=
  {| de_button := button;
     de_scenePos := to;
     de_lastScenePos := from;
     de_screenPos := to;
     de_lastScreenPos := from;
     de_buttonDownPos := fun _ => from;
     de_isFinish := finish;
     de_accepted := false |}.

Definition wheel (d : Z) : WheelEvent R :=
  {| we_delta := d; we_pos := (5, 5)%R; we_accepted := false |}.

(** The box after Shift was pressed and the mouse pressed at (2, 3). *)
Definition started_box : ViewBoxWithCursor R (view R) :=
  ViewBox.run cursor_box
    [ViewBox.KeyPress shift_press; ViewBox.MousePress (press_at 2 3)].

(** A gesture: one move, the finishing move, one move after it. *)
Definition moves : list (MouseDragEvent R * option Axis) :=
  [(drag Qt.LeftButton (2, 3)%R (4, 3)%R false, None)].

Definition finish : MouseDragEvent R * option Axis :=
  (drag Qt.LeftButton (4, 3)%R (6, 3)%R true, None).

Definition later : list (MouseDragEvent R * option Axis) :=
  [(drag Qt.LeftButton (6, 3)%R (7, 3)%R false, None)].





(** ** Over binary64 *)

(** A viewport showing [0, 3] x [0, 1]. *)
Definition fv0 : view float :=
  {| pv_mouseEnabled := (true, true);
     pv_aspectLocked := None;
     pv_wheelScaleFactor := (-0.125)%float;
     pv_range := ((0, 3), (0, 1))%float;
     pv_target := false |}.

(** A view box over it in Cursor mode, with a visible cursor at x = 1. *)
Definition fbox : ViewBoxWithCursor float (view float) :=
  {| base := fv0; mouseMode := ViewBox.CursorMode; zoom := None;
     zoom_start := None;
     cursor := Some {| cursor_isVisible := true; cursor_value := 1%float |};
     zoom_x_center_on_cursor := true;
     menu := {| mouseModes := [false; true; false]; valid := true |};
     emitted := [] |}.

(** One notch of the wheel. *)
Definition notch : WheelEvent float :=
  {| we_delta := 120; we_pos := (0, 0)%float; we_accepted := false |}.

End Plain.

(* ================================================================== *)
(** * Vocabulary of the specification *)

Module Spec.

(** The capital of a small ASCII letter. *)
Definition capital (c : ascii) : ascii :=
  let n := nat_of_ascii c in
  if (Nat.leb 97 n && Nat.leb n 122)%bool then ascii_of_nat (n - 32) else c.

(** [s] spells the word [w] "in any letter case": letter by letter, [s]
    has the letter of [w] or its capital. *)
Fixpoint spells (s w : string) : bool :=
  match s, w with
  | EmptyString, EmptyString => true
  | String a s', String b w' =>
      ((Ascii.eqb a b || Ascii.eqb a (capital b)) && spells s' w')%bool
  | _, _ => false
  end.

(** The number of checked entries of the menu. *)
Definition checked_count (actions : list bool) : nat :=
  List.length (filter (fun b => b) actions).

Section Signals.
Context {F : Type}.

(** Cursor-moved and the two zoom signals. *)
Definition cursor_or_zoom (s : signal F) : Prop :=
  match s with
  | sigCursorMoved _ | sigZoomChanged _ | sigZoomFinished _ => True
  | sigStateChanged | sigRangeChangedManually _ => False
  end.

Definition is_zoomFinished (s : signal F) : bool :=
  match s with
  | sigZoomFinished _ => true
  | _ => false
  end.

Definition is_zoomChanged (s : signal F) : bool :=
  match s with
  | sigZoomChanged _ => true
  | _ => false
  end.

End Signals.

Section Gesture.
Context {F V T : Type} {PF : PyFloat F} {VB : ViewBoxBase F V T}.

(** A gesture is in progress only in Cursor mode with a recognized armed
    modifier. *)
Definition gesture_inv (vb : ViewBoxWithCursor F V) : Prop :=
  zoom_start vb <> None ->
  Py.eqb (mouseMode vb) ViewBox.CursorMode = true
  /\ ViewBox.zoom_recognized (zoom vb) = true.

(** What a primary-button drag at [ev] emits while the gesture that
    started at [start] with modifier [z] is in progress. *)
Definition moved_signals (b : V) (start : point F) (z : option Z)
    (ev : MouseDragEvent F) : list (signal F) :=
  [sigCursorMoved (de_accept ev);
   sigZoomChanged (Some (start, mapSceneToView b (de_scenePos ev), z))].

(** ... and what the drag marked finish emits. *)
Definition finished_signals (b : V) (start : point F) (z : option Z)
    (ev : MouseDragEvent F) : list (signal F) :=
  moved_signals b start z ev
  ++ [sigZoomFinished (start, mapSceneToView b (de_scenePos ev), z);
      sigZoomChanged None].

(** A drag delivered by the host: no axis pinned unless given, the
    cursor not ignored. *)
Definition dragged (d : MouseDragEvent F * option Axis) : ViewBox.input :=
  ViewBox.MouseDrag (fst d) (snd d) false.

(** A primary-button drag, and one that is not marked finish. *)
Definition primary (d : MouseDragEvent F * option Axis) : Prop :=
  de_button (fst d) = Qt.LeftButton.

Definition primary_moving (d : MouseDragEvent F * option Axis) : Prop :=
  de_button (fst d) = Qt.LeftButton /\ de_isFinish (fst d) = false.

End Gesture.

Section Scaling.
Context {F : Type} {PF : PyFloat F} {PP : PyPow F}.

(** The factor an axis is scaled by: an axis that is handed no factor is
    not scaled. *)
Definition factor (s : option F) : F :=
  match s with
  | Some x => x
  | None => of_int 1
  end.

(** Three facts of arithmetic that hold over the reals and, by IEEE 754,
    over binary64: [0 * 0.02 = 0], [0 + 1 = 1] and [1 ** d = 1]. *)
Record unit_power : Prop := {
  zero_times : fmul (of_int 0) (lit 2 100) = of_int 0;
  zero_plus_one : fadd (of_int 0) (of_int 1) = of_int 1;
  one_to_any : forall d : F, fpow (of_int 1) d = of_int 1
}.

End Scaling.

Arguments unit_power F {PF PP}.

(** C4 as it is stated, over the arithmetic [PF] and [PFP]: when the setting is on
    and a cursor is set and visible, [wheelEvent] hands [setXRange] a
    padding of 0 and two bounds whose midpoint is the cursor position and
    whose distance is the old width times [1 - 2 * delta * 0.15 / 120]. *)
Definition wheel_centers_exactly (F : Type) (PF : PyFloat F)
    (PFP : PyFloatPow F) : Prop :=
  forall (V T : Type) (VB : ViewBoxBase F V T)
         (vb : ViewBoxWithCursor F V) (ev : WheelEvent F)
         (axis : option Axis) (c : Cursor F),
    zoom_x_center_on_cursor vb = true ->
    cursor vb = Some c ->
    cursor_isVisible c = true ->
    let x_range := fst (viewRange (base vb)) in
    exists lo hi : F,
      base (fst (snd (ViewBox.wheelEvent vb ev axis)))
      = setXRange lo hi (of_int 0) (base vb)
      /\ fdiv (fadd lo hi) (of_int 2) = cursor_value c
      /\ fsub hi lo
         = fmul (fsub (snd x_range) (fst x_range))
                (fsub (of_int 1)
                      (fdiv (fmul (fmul (of_int 2) (of_int (we_delta ev)))
                                  (lit 15 100))
                            (of_int 120))).

End Spec.

(* ================================================================== *)
(** * Sessions: everything a user and the host can do to a view box *)

Module Session.

(** The argument bound to the [triggered] signal of the actions
    [pan, cursor, zoom] of [self.mouseModes] ([partial(self.set_mouse_mode,
    ...)] in [ViewBoxMenu.__init__]). *)
Definition action_argument (i : nat) : option string :=
  nth_error ["pan"; "cursor"; "rect"]%string i.

Section Ops.
Context {F V T : Type} {PF : PyFloat F} {PP : PyPow F} {PFP : PyFloatPow F}
        {VB : ViewBoxBase F V T}.

(** The [i]-th action is triggered: its slot runs. *)
Definition trigger (i : nat) (vb : ViewBoxWithCursor F V)
  : outcome * ViewBoxWithCursor F V :=
  match action_argument i with
  | Some mode => ViewBox.set_mouse_mode mode vb
  | None => (Returned, vb)
  end.

(** One call from outside: a mode setter, a menu action, the menu popping
    up, a key or mouse event, a wheel event. *)
Inductive op : Type :=
| SetMouseMode (mode : pyobj)
| SetLeftButtonAction (mode : string)
| Trigger (i : nat)
| Popup
| Event (i : @ViewBox.input F)
| Wheel (ev : WheelEvent F) (axis : option Axis).

(** The view box after the call; a call that raises leaves it as the
    raising method left it. *)
Definition step (vb : ViewBoxWithCursor F V) (o : op) : ViewBoxWithCursor F V :=
  match o with
  | SetMouseMode mode => snd (ViewBox.setMouseMode mode vb)
  | SetLeftButtonAction mode => snd (ViewBox.setLeftButtonAction mode vb)
  | Trigger i => snd (trigger i vb)
  | Popup => ViewBox.popup vb
  | Event i => ViewBox.handle vb i
  | Wheel ev axis => fst (snd (ViewBox.wheelEvent vb ev axis))
  end.

Definition session (vb : ViewBoxWithCursor F V) (ops : list op)
  : ViewBoxWithCursor F V :=
  fold_left step ops vb.

End Ops.
End Session.

(* ================================================================== *)
(** * Vocabulary of the further properties *)

Module Props.

(** The stored mode equals one of the three modes. *)
Definition known_mode (m : pyobj) : Prop :=
  Py.eqb m ViewBox.PanMode = true
  \/ Py.eqb m ViewBox.CursorMode = true
  \/ Py.eqb m ViewBox.RectMode = true.

(** The menu shows the mode: three entries, the menu valid, one entry
    checked, and it is the entry of the stored mode. *)
Definition menu_shows {F V : Type} (vb : ViewBoxWithCursor F V) : Prop :=
  List.length (mouseModes (menu vb)) = 3%nat
  /\ valid (menu vb) = true
  /\ Spec.checked_count (mouseModes (menu vb)) = 1%nat
  /\ (Py.eqb (mouseMode vb) ViewBox.PanMode = true ->
      nth_error (mouseModes (menu vb)) 0 = Some true)
  /\ (Py.eqb (mouseMode vb) ViewBox.CursorMode = true ->
      nth_error (mouseModes (menu vb)) 1 = Some true)
  /\ (Py.eqb (mouseMode vb) ViewBox.RectMode = true ->
      nth_error (mouseModes (menu vb)) 2 = Some true).

(** An axis takes part in a drag or wheel event when no axis is pinned or
    it is the pinned one. *)
Definition takes_part (axis : option Axis) (a : Axis) : bool :=
  match axis, a with
  | None, _ => true
  | Some XAxis, XAxis => true
  | Some YAxis, YAxis => true
  | Some _, _ => false
  end.

(** A key event: a press or a release. *)
Inductive key : Type :=
| Press (ev : KeyEvent)
| Release (ev : KeyEvent).

Definition key_input {F : Type} (k : key) : @ViewBox.input F :=
  match k with
  | Press ev => ViewBox.KeyPress ev
  | Release ev => ViewBox.KeyRelease ev
  end.

(** The modifier armed by the last key event of [ks], or [z] if there is
    none. *)
Definition armed_by_last (z : option Z) (ks : list key) : option Z :=
  match rev ks with
  | [] => z
  | Press ev :: _ => Some (ke_combined ev)
  | Release _ :: _ => None
  end.

End Props.

(* ================================================================== *)
(** * The handlers on concrete inputs *)

Example zoom_combinations :
  ViewBox.X_zoom = 0x03000020
  /\ ViewBox.Y_zoom = 0x09000023
  /\ ViewBox.XY_zoom = (0x0b000023, 0x0b000020).
Proof. repeat split. Qed.

Example lower_mixed_case : Py.lower "Pan-MODE z[@`{" = "pan-mode z[@`{"%string.
Proof. reflexivity. Qed.

Example true_is_rect_mode :
  Py.eqb (PyBool true) ViewBox.RectMode = true
  /\ Py.eqb (PyStr "2") ViewBox.CursorMode = false
  /\ Py.eqb PyNone ViewBox.PanMode = false.
Proof. repeat split. Qed.

Example checking_is_exclusive :
  setChecked_True 1 [true; false; false] = [false; true; false].
Proof. reflexivity. Qed.

Example fresh_menu :
  menu Plain.pan_box = {| mouseModes := [true; false; false]; valid := true |}
  /\ menu Plain.cursor_box
     = {| mouseModes := [false; true; false]; valid := true |}.
Proof. split; reflexivity. Qed.

Example press_without_modifier :
  zoom_start (fst (ViewBox.mousePressEvent Plain.cursor_box (Plain.press_at 2 3)))
  = None.
Proof. reflexivity. Qed.

Example press_in_pan_mode :
  zoom_start
    (ViewBox.run Plain.pan_box
       [ViewBox.KeyPress Plain.shift_press;
        ViewBox.MousePress (Plain.press_at 2 3)]) = None.
Proof. reflexivity. Qed.

Example cursor_mode_wheel_mask :
  ViewBox.wheel_mask Plain.cursor_box (Some YAxis) = (true, false)
  /\ ViewBox.wheel_mask Plain.pan_box (Some YAxis) = (false, true)
  /\ ViewBox.wheel_mask Plain.pan_box None = (true, true).
Proof. repeat split. Qed.

(* ================================================================== *)
(** * Properties of the mode setters and of the menu *)

Section ModeSetters.
Context {F V T : Type} {PF : PyFloat F} {PP : PyPow F} {VB : ViewBoxBase F V T}.

Local Abbreviation vbox := (ViewBoxWithCursor F V).

Lemma setChecked_True_length (i : nat) (l : list bool) :
  List.length (setChecked_True i l) = List.length l.
Proof.
  unfold setChecked_True. now rewrite length_map, length_seq.
Qed.

Lemma setChecked_True_idem (i : nat) (l : list bool) :
  setChecked_True i (setChecked_True i l) = setChecked_True i l.
Proof.
  unfold setChecked_True at 1 3. now rewrite setChecked_True_length.
Qed.

Lemma updateState_idem (vb : vbox) :
  ViewBox.updateState (ViewBox.updateState vb) = ViewBox.updateState vb.
Proof.
  unfold ViewBox.updateState, ViewBox.set_menu; cbn -[setChecked_True].
  destruct (Py.eqb (mouseMode vb) ViewBox.PanMode);
    [| destruct (Py.eqb (mouseMode vb) ViewBox.CursorMode)];
    now rewrite setChecked_True_idem.
Qed.

Lemma contains_modes (mode : pyobj) :
  Py.contains mode [ViewBox.PanMode; ViewBox.CursorMode; ViewBox.RectMode]
  = (Py.eqb mode ViewBox.PanMode || Py.eqb mode ViewBox.CursorMode
     || Py.eqb mode ViewBox.RectMode)%bool.
Proof.
  unfold Py.contains; cbn [existsb]. now rewrite orb_false_r, orb_assoc.
Qed.

(** The three modes are pairwise different under Python's [==]. *)
Lemma eq_mode_exclusive (mode : pyobj) :
  (Py.eqb mode ViewBox.PanMode = true ->
   Py.eqb mode ViewBox.CursorMode = false /\ Py.eqb mode ViewBox.RectMode = false)
  /\ (Py.eqb mode ViewBox.CursorMode = true ->
      Py.eqb mode ViewBox.PanMode = false /\ Py.eqb mode ViewBox.RectMode = false)
  /\ (Py.eqb mode ViewBox.RectMode = true ->
      Py.eqb mode ViewBox.PanMode = false /\ Py.eqb mode ViewBox.CursorMode = false).
Proof.
  destruct mode as [| [|] | z | s]; cbn; (split; [| split]); intros E;
    try discriminate E; try (apply Z.eqb_eq in E; subst z);
    split; reflexivity.
Qed.

(** C2.  An argument that equals none of PanMode, CursorMode and RectMode
    (Python's [==], as [not in] tests it) makes [setMouseMode] raise and
    leaves the view box, its stored mode included, as it was; each of
    the three modes is accepted, becomes the stored mode, and one
    [sigStateChanged] is emitted, the rest of the view box kept. *)
Theorem setMouseMode_validates (mode : pyobj) (vb : vbox) :
  (Py.eqb mode ViewBox.PanMode = false ->
   Py.eqb mode ViewBox.CursorMode = false ->
   Py.eqb mode ViewBox.RectMode = false ->
   ViewBox.setMouseMode mode vb
   = (Raised (Exception ViewBox.setMouseMode_message), vb))
  /\ (In mode [ViewBox.PanMode; ViewBox.CursorMode; ViewBox.RectMode] ->
      let r := ViewBox.setMouseMode mode vb in
      fst r = Returned
      /\ mouseMode (snd r) = mode
      /\ emitted (snd r) = emitted vb ++ [sigStateChanged]
      /\ base (snd r) = base vb
      /\ zoom (snd r) = zoom vb
      /\ zoom_start (snd r) = zoom_start vb).
Proof.
  split.
  - intros Hp Hc Hr. unfold ViewBox.setMouseMode.
    now rewrite contains_modes, Hp, Hc, Hr.
  - intros Hin. cbn in Hin.
    destruct Hin as [<- | [<- | [<- | []]]]; cbn; repeat split; reflexivity.
Qed.


(** ** The legacy setter *)

Lemma lower_ascii_letter (a b : ascii) :
  (97 <= nat_of_ascii b <= 122)%nat ->
  (Ascii.eqb a b || Ascii.eqb a (Spec.capital b))%bool = true
  <-> Py.lower_ascii a = b.
Proof.
  intros Hb. unfold Spec.capital, Py.lower_ascii.
  assert (Hn := nat_ascii_bounded a).
  replace (Nat.leb 97 (nat_of_ascii b) && Nat.leb (nat_of_ascii b) 122)%bool
    with true
    by (symmetry; apply andb_true_iff; split; apply Nat.leb_le; lia).
  rewrite orb_true_iff, !Ascii.eqb_eq. split.
  - intros [-> | ->].
    + replace (Nat.leb (nat_of_ascii b) 90) with false
        by (symmetry; apply Nat.leb_gt; lia).
      now rewrite andb_false_r.
    + rewrite nat_ascii_embedding by lia.
      replace (Nat.leb 65 (nat_of_ascii b - 32)
               && Nat.leb (nat_of_ascii b - 32) 90)%bool with true
        by (symmetry; apply andb_true_iff; split; apply Nat.leb_le; lia).
      replace (nat_of_ascii b - 32 + 32)%nat with (nat_of_ascii b) by lia.
      apply ascii_nat_embedding.
  - destruct (Nat.leb 65 (nat_of_ascii a) && Nat.leb (nat_of_ascii a) 90)%bool
      eqn:E.
    + apply andb_true_iff in E. destruct E as [E1 E2].
      apply Nat.leb_le in E1, E2. intros <-. right.
      rewrite nat_ascii_embedding by lia.
      replace (nat_of_ascii a + 32 - 32)%nat with (nat_of_ascii a) by lia.
      symmetry. apply ascii_nat_embedding.
    + intros ->. now left.
Qed.

(** A word of small letters is spelled by exactly the strings that
    [lower] sends to it. *)
Lemma spells_lower (w s : string) :
  (forall c, In c (list_ascii_of_string w) -> (97 <= nat_of_ascii c <= 122)%nat) ->
  Spec.spells s w = true <-> Py.lower s = w.
Proof.
  revert s. induction w as [| b w IH]; intros [| a s] Hw; cbn.
  - tauto.
  - split; discriminate.
  - split; discriminate.
  - rewrite andb_true_iff, lower_ascii_letter by (apply Hw; now left).
    rewrite IH by (intros c Hc; apply Hw; now right).
    split.
    + now intros [-> ->].
    + intros E. now injection E.
Qed.

Lemma small_letters_pan :
  forall c, In c (list_ascii_of_string "pan") -> (97 <= nat_of_ascii c <= 122)%nat.
Proof. cbn. intros c [<- | [<- | [<- | []]]]; cbn; lia. Qed.

Lemma small_letters_rect :
  forall c, In c (list_ascii_of_string "rect") -> (97 <= nat_of_ascii c <= 122)%nat.
Proof. cbn. intros c [<- | [<- | [<- | [<- | []]]]]; cbn; lia. Qed.

Lemma small_letters_cursor :
  forall c, In c (list_ascii_of_string "cursor") -> (97 <= nat_of_ascii c <= 122)%nat.
Proof.
  cbn. intros c [<- | [<- | [<- | [<- | [<- | [<- | []]]]]]]; cbn; lia.
Qed.

Lemma spells_eqb (w s : string) :
  (forall c, In c (list_ascii_of_string w) -> (97 <= nat_of_ascii c <= 122)%nat) ->
  String.eqb (Py.lower s) w = Spec.spells s w.
Proof.
  intros Hw. apply eq_true_iff_eq.
  now rewrite String.eqb_eq, spells_lower.
Qed.

(** C7.  [setLeftButtonAction] sets PanMode for every spelling of "pan",
    CursorMode for every spelling of "cursor" and RectMode for every
    spelling of "rect", whatever the case of the letters; for every other
    string it raises and leaves the view box, its mode included, as it
    was. *)
Theorem setLeftButtonAction_maps (s : string) (vb : vbox) :
  (Spec.spells s "pan" = true ->
   ViewBox.setLeftButtonAction s vb = ViewBox.setMouseMode ViewBox.PanMode vb
   /\ fst (ViewBox.setLeftButtonAction s vb) = Returned
   /\ mouseMode (snd (ViewBox.setLeftButtonAction s vb)) = ViewBox.PanMode)
  /\ (Spec.spells s "cursor" = true ->
      ViewBox.setLeftButtonAction s vb
      = ViewBox.setMouseMode ViewBox.CursorMode vb
      /\ fst (ViewBox.setLeftButtonAction s vb) = Returned
      /\ mouseMode (snd (ViewBox.setLeftButtonAction s vb)) = ViewBox.CursorMode)
  /\ (Spec.spells s "rect" = true ->
      ViewBox.setLeftButtonAction s vb
      = ViewBox.setMouseMode ViewBox.RectMode vb
      /\ fst (ViewBox.setLeftButtonAction s vb) = Returned
      /\ mouseMode (snd (ViewBox.setLeftButtonAction s vb)) = ViewBox.RectMode)
  /\ (Spec.spells s "pan" = false ->
      Spec.spells s "cursor" = false ->
      Spec.spells s "rect" = false ->
      ViewBox.setLeftButtonAction s vb
      = (Raised (Exception (ViewBox.setLeftButtonAction_message s)), vb)).
Proof.
  unfold ViewBox.setLeftButtonAction.
  rewrite (spells_eqb "rect" s small_letters_rect),
          (spells_eqb "pan" s small_letters_pan),
          (spells_eqb "cursor" s small_letters_cursor).
  assert (Hr := proj1 (spells_lower "rect" s small_letters_rect)).
  assert (Hp := proj1 (spells_lower "pan" s small_letters_pan)).
  assert (Hc := proj1 (spells_lower "cursor" s small_letters_cursor)).
  destruct (Spec.spells s "rect"), (Spec.spells s "pan"),
    (Spec.spells s "cursor");
    try (specialize (Hr eq_refl)); try (specialize (Hp eq_refl));
    try (specialize (Hc eq_refl)); try congruence;
    repeat split; intros; try discriminate; reflexivity.
Qed.

(** ** The menu *)

Lemma menu_after_state_change (vb : vbox) :
  List.length (mouseModes (menu vb)) = 3%nat ->
  mouseModes (menu (ViewBox.emit_sigStateChanged vb))
  = if Py.eqb (mouseMode vb) ViewBox.PanMode then [true; false; false]
    else if Py.eqb (mouseMode vb) ViewBox.CursorMode then [false; true; false]
    else [false; false; true].
Proof.
  intros Hlen.
  unfold ViewBox.emit_sigStateChanged, ViewBox.viewStateChanged,
    ViewBox.updateState; cbn -[setChecked_True].
  destruct (mouseModes (menu vb)) as [| a [| b [| c [| d l]]]];
    try discriminate Hlen.
  destruct (Py.eqb (mouseMode vb) ViewBox.PanMode);
    [| destruct (Py.eqb (mouseMode vb) ViewBox.CursorMode)]; reflexivity.
Qed.

(** The menu keeps its number of entries, so the three entries built by
    [ViewBoxMenu.__init__] stay three. *)
Lemma setMouseMode_keeps_entries (mode : pyobj) (vb : vbox) :
  List.length (mouseModes (menu (snd (ViewBox.setMouseMode mode vb))))
  = List.length (mouseModes (menu vb)).
Proof.
  unfold ViewBox.setMouseMode.
  destruct (negb (Py.contains mode
                    [ViewBox.PanMode; ViewBox.CursorMode; ViewBox.RectMode]));
    [reflexivity |].
  unfold ViewBox.emit_sigStateChanged, ViewBox.viewStateChanged,
    ViewBox.updateState; cbn -[setChecked_True].
  destruct (Py.eqb mode ViewBox.PanMode);
    [| destruct (Py.eqb mode ViewBox.CursorMode)];
    apply setChecked_True_length.
Qed.

(** C8.  When [setMouseMode] succeeds on a view box whose menu has its
    three entries, the refresh its notification triggers leaves exactly
    one entry checked: the first for PanMode, the second for CursorMode,
    the third for RectMode, according to the mode now stored; the menu
    is marked valid; and refreshing again changes nothing. *)
Theorem menu_follows_mode (mode : pyobj) (vb vb' : vbox) :
  List.length (mouseModes (menu vb)) = 3%nat ->
  ViewBox.setMouseMode mode vb = (Returned, vb') ->
  mouseMode vb' = mode
  /\ Spec.checked_count (mouseModes (menu vb')) = 1%nat
  /\ (Py.eqb mode ViewBox.PanMode = true ->
      mouseModes (menu vb') = [true; false; false])
  /\ (Py.eqb mode ViewBox.CursorMode = true ->
      mouseModes (menu vb') = [false; true; false])
  /\ (Py.eqb mode ViewBox.RectMode = true ->
      mouseModes (menu vb') = [false; false; true])
  /\ valid (menu vb') = true
  /\ ViewBox.updateState vb' = vb'
  /\ ViewBox.updateState (ViewBox.updateState vb) = ViewBox.updateState vb.
Proof.
  intros Hlen Hset. unfold ViewBox.setMouseMode in Hset.
  rewrite contains_modes in Hset.
  destruct (Py.eqb mode ViewBox.PanMode || Py.eqb mode ViewBox.CursorMode
            || Py.eqb mode ViewBox.RectMode)%bool eqn:Hin;
    cbn [negb] in Hset; [| discriminate Hset].
  injection Hset as <-.
  assert (Hmenu := menu_after_state_change (ViewBox.set_mouseMode mode vb) Hlen).
  cbn [mouseMode ViewBox.set_mouseMode] in Hmenu.
  destruct (eq_mode_exclusive mode) as (Hp & Hc & Hr).
  split; [reflexivity |].
  rewrite Hmenu.
  split; [| split; [| split; [| split; [| split; [| split]]]]].
  - destruct (Py.eqb mode ViewBox.PanMode);
      [| destruct (Py.eqb mode ViewBox.CursorMode)]; reflexivity.
  - now intros ->.
  - intros E. destruct (Hc E) as [-> _]. now rewrite E.
  - intros E. destruct (Hr E) as [-> ->]. reflexivity.
  - reflexivity.
  - apply updateState_idem.
  - apply updateState_idem.
Qed.

End ModeSetters.

Lemma setMouseMode_validates_witness :
  ViewBox.setMouseMode (PyInt 7) Plain.pan_box
  = (Raised (Exception ViewBox.setMouseMode_message), Plain.pan_box)
  /\ ViewBox.setMouseMode PyNone Plain.pan_box
     = (Raised (Exception ViewBox.setMouseMode_message), Plain.pan_box)
  /\ mouseMode (snd (ViewBox.setMouseMode ViewBox.CursorMode Plain.pan_box))
     = ViewBox.CursorMode.
Proof.
  split; [| split].
  - apply (setMouseMode_validates (PyInt 7) Plain.pan_box); reflexivity.
  - apply (setMouseMode_validates PyNone Plain.pan_box); reflexivity.
  - apply (setMouseMode_validates ViewBox.CursorMode Plain.pan_box).
    simpl. auto.
Defined.

Lemma setLeftButtonAction_maps_witness :
  Spec.spells "CuRsOr" "cursor" = true
  /\ mouseMode (snd (ViewBox.setLeftButtonAction "CuRsOr" Plain.pan_box))
     = ViewBox.CursorMode
  /\ ViewBox.setLeftButtonAction "zoom" Plain.pan_box
     = (Raised (Exception (ViewBox.setLeftButtonAction_message "zoom")),
        Plain.pan_box).
Proof.
  split; [reflexivity | split].
  - apply (setLeftButtonAction_maps "CuRsOr" Plain.pan_box). reflexivity.
  - apply (setLeftButtonAction_maps "zoom" Plain.pan_box); reflexivity.
Defined.

Lemma menu_follows_mode_witness :
  List.length (mouseModes (menu Plain.pan_box)) = 3%nat
  /\ mouseModes (menu Plain.pan_box) = [true; false; false]
  /\ mouseModes
       (menu (snd (ViewBox.setMouseMode ViewBox.CursorMode Plain.pan_box)))
     = [false; true; false].
Proof.
  split; [reflexivity | split; [reflexivity |]].
  apply (@menu_follows_mode _ _ ViewBox.CursorMode Plain.pan_box
           (snd (ViewBox.setMouseMode ViewBox.CursorMode Plain.pan_box)));
    reflexivity.
Defined.

(* ================================================================== *)
(** * Properties of the key, press and drag handlers *)

Section Handlers.
Context {F V T : Type} {PF : PyFloat F} {PP : PyPow F} {VB : ViewBoxBase F V T}.

Local Abbreviation vbox := (ViewBoxWithCursor F V).

(** C10.  The key-press, key-release and mouse-press handlers leave the
    event not accepted, whatever the view box and the event: also the
    key-press that arms a modifier and the mouse-press that starts a
    gesture. *)
Theorem key_and_press_events_ignored
    (vb : vbox) (kev : KeyEvent) (pev : MousePressEvent F) :
  ke_accepted (snd (ViewBox.keyPressEvent vb kev)) = false
  /\ ke_accepted (snd (ViewBox.keyReleaseEvent vb kev)) = false
  /\ mp_accepted (snd (ViewBox.mousePressEvent vb pev)) = false.
Proof.
  repeat split.
Qed.

(** ** A primary-button drag in Cursor mode *)

Lemma drag_primary_idle (vb : vbox) (ev : MouseDragEvent F) (axis : option Axis) :
  Py.eqb (mouseMode vb) ViewBox.CursorMode = true ->
  de_button ev = Qt.LeftButton ->
  zoom_start vb = None ->
  fst (ViewBox.mouseDragEvent vb ev axis false)
  = ViewBox.emit (sigCursorMoved (de_accept ev)) vb.
Proof.
  intros Hm Hb Hz. unfold ViewBox.mouseDragEvent.
  rewrite Hm. cbn. rewrite Hb, Hz. reflexivity.
Qed.

Lemma drag_primary_moving (vb : vbox) (ev : MouseDragEvent F)
    (axis : option Axis) (start : point F) :
  Py.eqb (mouseMode vb) ViewBox.CursorMode = true ->
  de_button ev = Qt.LeftButton ->
  zoom_start vb = Some start ->
  de_isFinish ev = false ->
  fst (ViewBox.mouseDragEvent vb ev axis false)
  = ViewBox.emit
      (sigZoomChanged
         (Some (start, mapSceneToView (base vb) (de_scenePos ev), zoom vb)))
      (ViewBox.emit (sigCursorMoved (de_accept ev)) vb).
Proof.
  intros Hm Hb Hz Hf. unfold ViewBox.mouseDragEvent.
  rewrite Hm. cbn. rewrite Hb, Hz, Hf. reflexivity.
Qed.

Lemma drag_primary_finish (vb : vbox) (ev : MouseDragEvent F)
    (axis : option Axis) (start : point F) :
  Py.eqb (mouseMode vb) ViewBox.CursorMode = true ->
  de_button ev = Qt.LeftButton ->
  zoom_start vb = Some start ->
  de_isFinish ev = true ->
  let end_ := mapSceneToView (base vb) (de_scenePos ev) in
  fst (ViewBox.mouseDragEvent vb ev axis false)
  = ViewBox.emit (sigZoomChanged None)
      (ViewBox.set_zoom_start None
         (ViewBox.emit (sigZoomFinished (start, end_, zoom vb))
            (ViewBox.emit (sigZoomChanged (Some (start, end_, zoom vb)))
               (ViewBox.emit (sigCursorMoved (de_accept ev)) vb)))).
Proof.
  intros Hm Hb Hz Hf. unfold ViewBox.mouseDragEvent.
  rewrite Hm. cbn. rewrite Hb, Hz, Hf. reflexivity.
Qed.

(** C9.  In Cursor mode, a primary-button drag that does not ignore the
    cursor leaves the inherited state (the view transform and the
    pending auto-range target live there) as it was, and what it emits
    are cursor-moved and zoom signals only: no manual-range-change. *)
Theorem cursor_drag_frame (vb : vbox) (ev : MouseDragEvent F)
    (axis : option Axis) :
  Py.eqb (mouseMode vb) ViewBox.CursorMode = true ->
  de_button ev = Qt.LeftButton ->
  let vb' := fst (ViewBox.mouseDragEvent vb ev axis false) in
  base vb' = base vb
  /\ mouseMode vb' = mouseMode vb
  /\ exists new,
       emitted vb' = emitted vb ++ new
       /\ Forall Spec.cursor_or_zoom new
       /\ hd_error new = Some (sigCursorMoved (de_accept ev)).
Proof.
  intros Hm Hb.
  destruct (zoom_start vb) as [start |] eqn:Hz.
  - destruct (de_isFinish ev) eqn:Hf.
    + cbv zeta. rewrite (drag_primary_finish vb ev axis Hm Hb Hz Hf).
      cbn. repeat split.
      eexists. rewrite <- !app_assoc. cbn. split; [reflexivity |].
      split; [| reflexivity]. repeat constructor.
    + cbv zeta. rewrite (drag_primary_moving vb ev axis Hm Hb Hz Hf).
      cbn. repeat split.
      eexists. rewrite <- !app_assoc. cbn. split; [reflexivity |].
      split; [| reflexivity]. repeat constructor.
  - cbv zeta. rewrite (drag_primary_idle vb ev axis Hm Hb Hz).
    cbn. repeat split.
    eexists. split; [reflexivity |].
    split; [| reflexivity]. repeat constructor.
Qed.


(** ** The gesture over event sequences *)

(** A drag never touches the mode or the armed modifier, and either keeps
    the start point or clears it. *)
Lemma drag_gesture_frame (vb : vbox) (ev : MouseDragEvent F)
    (axis : option Axis) (ignore_cursor : bool) :
  let vb' := fst (ViewBox.mouseDragEvent vb ev axis ignore_cursor) in
  mouseMode vb' = mouseMode vb
  /\ zoom vb' = zoom vb
  /\ (zoom_start vb' = zoom_start vb
      \/ (zoom_start vb' = None
          /\ ignore_cursor = false
          /\ de_button ev = Qt.LeftButton
          /\ de_isFinish ev = true)).
Proof.
  unfold ViewBox.mouseDragEvent.
  destruct (Py.eqb (mouseMode vb) ViewBox.CursorMode && negb ignore_cursor)%bool
    eqn:Hc.
  - apply andb_true_iff in Hc. destruct Hc as [_ Hi].
    apply negb_true_iff in Hi. cbn.
    destruct (Z.eqb (de_button ev) Qt.LeftButton) eqn:Hb.
    + apply Z.eqb_eq in Hb. destruct (zoom_start vb) eqn:Hz.
      * destruct (de_isFinish ev) eqn:Hf; cbn; auto 10.
      * cbn; auto.
    + destruct (state_mouseEnabled (base vb)) as [[|] [|]],
        axis as [[|]|]; cbn; auto.
  - cbn.
    destruct (Z.eqb (de_button ev) Qt.LeftButton
              || Z.eqb (de_button ev) Qt.MiddleButton)%bool.
    + destruct (state_mouseEnabled (base vb)) as [[|] [|]],
        axis as [[|]|]; cbn; auto.
    + destruct (negb (Z.eqb (Z.land (de_button ev) Qt.RightButton) 0));
        cbn; auto.
Qed.

Lemma handle_preserves_gesture_inv (vb : vbox) (i : ViewBox.input) :
  Spec.gesture_inv vb -> Spec.gesture_inv (ViewBox.handle vb i).
Proof.
  unfold Spec.gesture_inv. intros Inv.
  destruct i as [ev | ev | ev | ev axis ignore_cursor]; cbn [ViewBox.handle].
  - unfold ViewBox.keyPressEvent; cbn.
    destruct (zoom_start vb) eqn:Hz; cbn; rewrite Hz;
      [intros _; apply Inv; discriminate | congruence].
  - unfold ViewBox.keyReleaseEvent; cbn.
    destruct (zoom_start vb) eqn:Hz; cbn; rewrite Hz;
      [intros _; apply Inv; discriminate | congruence].
  - unfold ViewBox.mousePressEvent; cbn.
    destruct (Py.eqb (mouseMode vb) ViewBox.CursorMode
              && ViewBox.zoom_recognized (zoom vb))%bool eqn:Hc; cbn.
    + intros _. now apply andb_true_iff in Hc.
    + exact Inv.
  - destruct (drag_gesture_frame vb ev axis ignore_cursor) as (Hm & Hz & Hs).
    cbv zeta in Hm, Hz, Hs. rewrite Hm, Hz.
    destruct Hs as [-> | [-> _]]; [exact Inv | congruence].
Qed.

Lemma run_preserves_gesture_inv (evs : list ViewBox.input) (vb : vbox) :
  Spec.gesture_inv vb -> Spec.gesture_inv (ViewBox.run vb evs).
Proof.
  revert vb. induction evs as [| i evs IH]; intros vb Inv; cbn.
  - exact Inv.
  - apply IH. now apply handle_preserves_gesture_inv.
Qed.

(** The one event that ends a gesture. *)
Lemma only_finish_clears (vb : vbox) (i : ViewBox.input) :
  zoom_start vb <> None ->
  zoom_start (ViewBox.handle vb i) = None ->
  exists ev axis,
    i = ViewBox.MouseDrag ev axis false
    /\ de_button ev = Qt.LeftButton
    /\ de_isFinish ev = true.
Proof.
  intros Hs Hc.
  destruct i as [ev | ev | ev | ev axis ignore_cursor]; cbn [ViewBox.handle] in Hc.
  - unfold ViewBox.keyPressEvent in Hc; cbn in Hc.
    destruct (zoom_start vb) eqn:Hz; [congruence | now elim Hs].
  - unfold ViewBox.keyReleaseEvent in Hc; cbn in Hc.
    destruct (zoom_start vb) eqn:Hz; [congruence | now elim Hs].
  - unfold ViewBox.mousePressEvent in Hc; cbn in Hc.
    destruct (Py.eqb (mouseMode vb) ViewBox.CursorMode
              && ViewBox.zoom_recognized (zoom vb))%bool; cbn in Hc;
      congruence.
  - destruct (drag_gesture_frame vb ev axis ignore_cursor) as (_ & _ & Hd).
    cbv zeta in Hd. destruct Hd as [E | (_ & -> & Hb & Hf)].
    + congruence.
    + now exists ev, axis.
Qed.

(** C1, as the code has it.  Along every sequence of key-press,
    key-release, mouse-press and drag events that starts with no gesture
    in progress, a start point is recorded only while the mode is
    CursorMode and the armed modifier is a recognized zoom combination.
    A key-release during a gesture changes nothing: start point and armed
    modifier stay.  The only event that clears the start point is a
    primary-button drag marked finish, with the cursor not ignored. *)
Theorem gesture_state_invariant
    (vb : vbox) (evs : list ViewBox.input) (kev : KeyEvent) (i : ViewBox.input) :
  zoom_start vb = None ->
  let vb' := ViewBox.run vb evs in
  (zoom_start vb' <> None ->
   Py.eqb (mouseMode vb') ViewBox.CursorMode = true
   /\ ViewBox.zoom_recognized (zoom vb') = true)
  /\ (zoom_start vb' <> None -> fst (ViewBox.keyReleaseEvent vb' kev) = vb')
  /\ (zoom_start vb' <> None ->
      zoom_start (ViewBox.handle vb' i) = None ->
      exists ev axis,
        i = ViewBox.MouseDrag ev axis false
        /\ de_button ev = Qt.LeftButton
        /\ de_isFinish ev = true).
Proof.
  intros H0 vb'. split; [| split].
  - apply (run_preserves_gesture_inv evs).
    unfold Spec.gesture_inv. congruence.
  - intros Hs. unfold ViewBox.keyReleaseEvent; cbn.
    destruct (zoom_start vb'); [reflexivity | now elim Hs].
  - apply only_finish_clears.
Qed.


(** ** One gesture from press to finish *)

Lemma run_cons (vb : vbox) (i : ViewBox.input) (evs : list ViewBox.input) :
  ViewBox.run vb (i :: evs) = ViewBox.run (ViewBox.handle vb i) evs.
Proof. reflexivity. Qed.

(** While the gesture is in progress, each drag adds its two signals and
    nothing else changes. *)
Lemma run_moving (ds : list (MouseDragEvent F * option Axis)) :
  forall (vb : vbox) (start : point F),
    Py.eqb (mouseMode vb) ViewBox.CursorMode = true ->
    zoom_start vb = Some start ->
    Forall Spec.primary_moving ds ->
    let vb' := ViewBox.run vb (map Spec.dragged ds) in
    base vb' = base vb
    /\ mouseMode vb' = mouseMode vb
    /\ zoom vb' = zoom vb
    /\ zoom_start vb' = Some start
    /\ emitted vb'
       = emitted vb
         ++ flat_map (Spec.moved_signals (base vb) start (zoom vb)) (map fst ds).
Proof.
  induction ds as [| d ds IH]; intros vb start Hm Hz Hds.
  - cbn. now rewrite app_nil_r.
  - inversion Hds as [| ? ? [Hb Hf] Hrest]; subst.
    cbv zeta. cbn [map flat_map]. rewrite run_cons.
    change (ViewBox.handle vb (Spec.dragged d))
      with (fst (ViewBox.mouseDragEvent vb (fst d) (snd d) false)).
    rewrite (drag_primary_moving vb (fst d) (snd d) Hm Hb Hz Hf).
    match goal with
    | |- context [ViewBox.run ?s _] =>
        destruct (IH s start Hm Hz Hrest) as (E1 & E2 & E3 & E4 & E5)
    end.
    cbv zeta in E1, E2, E3, E4, E5.
    rewrite E1, E2, E3, E4, E5. cbn.
    repeat split. now rewrite <- !app_assoc.
Qed.

(** With no gesture in progress, each primary drag only moves the cursor. *)
Lemma run_idle (ds : list (MouseDragEvent F * option Axis)) :
  forall vb : vbox,
    Py.eqb (mouseMode vb) ViewBox.CursorMode = true ->
    zoom_start vb = None ->
    Forall Spec.primary ds ->
    let vb' := ViewBox.run vb (map Spec.dragged ds) in
    zoom_start vb' = None
    /\ emitted vb'
       = emitted vb ++ map (fun d => sigCursorMoved (de_accept (fst d))) ds.
Proof.
  induction ds as [| d ds IH]; intros vb Hm Hz Hds.
  - cbn. now rewrite app_nil_r.
  - inversion Hds as [| ? ? Hb Hrest]; subst.
    cbv zeta. cbn [map]. rewrite run_cons.
    change (ViewBox.handle vb (Spec.dragged d))
      with (fst (ViewBox.mouseDragEvent vb (fst d) (snd d) false)).
    rewrite (drag_primary_idle vb (fst d) (snd d) Hm Hb Hz).
    match goal with
    | |- context [ViewBox.run ?s _] =>
        destruct (IH s Hm Hz Hrest) as (E1 & E2)
    end.
    cbv zeta in E1, E2. rewrite E1, E2. cbn.
    split; [reflexivity |]. now rewrite <- app_assoc.
Qed.

Lemma no_finished_in_moved (b : V) (start : point F) (z : option Z)
    (evs : list (MouseDragEvent F)) :
  filter Spec.is_zoomFinished (flat_map (Spec.moved_signals b start z) evs) = [].
Proof.
  induction evs as [| e evs IH]; cbn; [reflexivity | exact IH].
Qed.

Lemma no_finished_in_cursor_moves (ds : list (MouseDragEvent F * option Axis)) :
  filter Spec.is_zoomFinished
    (map (fun d => sigCursorMoved (de_accept (fst d))) ds) = [].
Proof.
  induction ds as [| d ds IH]; cbn; [reflexivity | exact IH].
Qed.

Lemma no_changed_in_cursor_moves (ds : list (MouseDragEvent F * option Axis)) :
  filter Spec.is_zoomChanged
    (map (fun d => sigCursorMoved (de_accept (fst d))) ds) = [].
Proof.
  induction ds as [| d ds IH]; cbn; [reflexivity | exact IH].
Qed.

Lemma skipn_length_app {A : Type} (xs ys : list A) :
  skipn (List.length xs) (xs ++ ys) = ys.
Proof.
  induction xs as [| x xs IH]; cbn; [reflexivity | exact IH].
Qed.

(** C3.  In Cursor mode with no gesture in progress, a key-press of the
    X-zoom combination and a mouse-press record the data-space press
    position as start point, with X-zoom as the modifier.  Each
    primary-button drag that follows emits cursor-moved and zoom-changed
    with (start, data-space end point, modifier).  The drag marked
    finish emits the same two, then zoom-finished with the same payload,
    clears the start point and emits zoom-changed with no payload.
    The primary drags after it emit cursor-moved only: no zoom-changed.
    Over the whole sequence zoom-finished is emitted once. *)
Theorem zoom_gesture_lifecycle
    (vb : vbox) (kev : KeyEvent) (pev : MousePressEvent F)
    (ds : list (MouseDragEvent F * option Axis))
    (fin : MouseDragEvent F * option Axis)
    (after : list (MouseDragEvent F * option Axis)) :
  Py.eqb (mouseMode vb) ViewBox.CursorMode = true ->
  zoom_start vb = None ->
  ke_combined kev = ViewBox.X_zoom ->
  Forall Spec.primary_moving ds ->
  de_button (fst fin) = Qt.LeftButton ->
  de_isFinish (fst fin) = true ->
  Forall Spec.primary after ->
  let start := mapSceneToView (base vb) (mp_scenePos pev) in
  let z := Some ViewBox.X_zoom in
  let s1 := ViewBox.run vb [ViewBox.KeyPress kev; ViewBox.MousePress pev] in
  let s2 := ViewBox.run s1 (map Spec.dragged ds) in
  let s3 := ViewBox.handle s2 (Spec.dragged fin) in
  let s4 := ViewBox.run s3 (map Spec.dragged after) in
  (zoom_start s1 = Some start /\ zoom s1 = z /\ emitted s1 = emitted vb)
  /\ emitted s2
     = emitted s1
       ++ flat_map (Spec.moved_signals (base vb) start z) (map fst ds)
  /\ emitted s3 = emitted s2 ++ Spec.finished_signals (base vb) start z (fst fin)
  /\ zoom_start s3 = None
  /\ emitted s4
     = emitted s3 ++ map (fun d => sigCursorMoved (de_accept (fst d))) after
  /\ filter Spec.is_zoomChanged
       (skipn (List.length (emitted s3)) (emitted s4)) = []
  /\ List.length
       (filter Spec.is_zoomFinished
          (skipn (List.length (emitted vb)) (emitted s4))) = 1%nat.
Proof.
  intros Hm Hz Hk Hds Hb Hf Hafter start z s1 s2 s3 s4.
  assert (H1 : s1 = ViewBox.set_zoom_start (Some start) (ViewBox.set_zoom z vb)).
  { unfold s1, ViewBox.run; cbn [fold_left ViewBox.handle].
    unfold ViewBox.keyPressEvent; rewrite Hz; cbn [fst].
    unfold ViewBox.mousePressEvent; cbn [fst mouseMode zoom ViewBox.set_zoom].
    rewrite Hm, Hk. reflexivity. }
  assert (Hm1 : Py.eqb (mouseMode s1) ViewBox.CursorMode = true)
    by (rewrite H1; exact Hm).
  assert (Hz1 : zoom_start s1 = Some start) by (rewrite H1; reflexivity).
  assert (Hb1 : base s1 = base vb) by (rewrite H1; reflexivity).
  assert (Hzm1 : zoom s1 = z) by (rewrite H1; reflexivity).
  assert (He1 : emitted s1 = emitted vb) by (rewrite H1; reflexivity).
  destruct (@run_moving ds s1 start Hm1 Hz1 Hds) as (B2 & M2 & Z2 & S2 & E2).
  fold s2 in B2, M2, Z2, S2, E2. rewrite Hb1, Hzm1 in E2.
  assert (Hm2 : Py.eqb (mouseMode s2) ViewBox.CursorMode = true)
    by (rewrite M2; exact Hm1).
  assert (H3 := drag_primary_finish s2 (fst fin) (snd fin) Hm2 Hb S2 Hf).
  cbv zeta in H3. rewrite B2, Hb1, Z2, Hzm1 in H3.
  change (fst (ViewBox.mouseDragEvent s2 (fst fin) (snd fin) false)) with s3 in H3.
  assert (E3 : emitted s3
               = emitted s2 ++ Spec.finished_signals (base vb) start z (fst fin)).
  { rewrite H3. cbn. unfold Spec.finished_signals, Spec.moved_signals.
    now rewrite <- !app_assoc. }
  assert (S3 : zoom_start s3 = None) by (rewrite H3; reflexivity).
  assert (Hm3 : Py.eqb (mouseMode s3) ViewBox.CursorMode = true)
    by (rewrite H3; exact Hm2).
  destruct (@run_idle after s3 Hm3 S3 Hafter) as (S4 & E4). fold s4 in S4, E4.
  repeat split; try assumption.
  - rewrite E4, skipn_length_app. apply no_changed_in_cursor_moves.
  - rewrite E4, E3, E2, He1, <- !app_assoc, skipn_length_app.
    rewrite !filter_app, no_finished_in_moved, no_finished_in_cursor_moves.
    reflexivity.
Qed.

End Handlers.

(** C1 as stated fails: Shift is pressed, the mouse is pressed in Cursor
    mode, Shift is released.  The release arrives while the gesture is in
    progress, and the start point is still recorded after it, with the
    X-zoom combination still armed. *)
Lemma key_release_keeps_gesture :
  zoom_start Plain.started_box <> None
  /\ zoom_start (fst (ViewBox.keyReleaseEvent Plain.started_box Plain.shift_release))
     <> None
  /\ zoom (fst (ViewBox.keyReleaseEvent Plain.started_box Plain.shift_release))
     = Some ViewBox.X_zoom.
Proof.
  repeat split; discriminate.
Qed.

Lemma gesture_state_invariant_witness :
  zoom_start Plain.cursor_box = None
  /\ Py.eqb (mouseMode Plain.started_box) ViewBox.CursorMode = true
  /\ fst (ViewBox.keyReleaseEvent Plain.started_box Plain.shift_release)
     = Plain.started_box.
Proof.
  destruct (gesture_state_invariant Plain.cursor_box
              [ViewBox.KeyPress Plain.shift_press;
               ViewBox.MousePress (Plain.press_at 2 3)]
              Plain.shift_release (ViewBox.KeyRelease Plain.shift_release)
              eq_refl) as (Hinv & Hrel & _).
  split; [reflexivity | split].
  - apply Hinv. discriminate.
  - apply Hrel. discriminate.
Defined.

Lemma zoom_gesture_lifecycle_witness :
  Py.eqb (mouseMode Plain.cursor_box) ViewBox.CursorMode = true
  /\ zoom_start Plain.cursor_box = None
  /\ ke_combined Plain.shift_press = ViewBox.X_zoom
  /\ zoom_start Plain.started_box = Some (mapSceneToView Plain.v0 (2, 3)%R)
  /\ zoom_start
       (ViewBox.handle
          (ViewBox.run Plain.started_box (map Spec.dragged Plain.moves))
          (Spec.dragged Plain.finish)) = None.
Proof.
  assert (Hmoves : Forall Spec.primary_moving Plain.moves)
    by (repeat constructor).
  assert (Hlater : Forall Spec.primary Plain.later)
    by (repeat constructor).
  destruct (zoom_gesture_lifecycle Plain.cursor_box Plain.shift_press
              (Plain.press_at 2 3) Plain.finish
              eq_refl eq_refl eq_refl Hmoves eq_refl eq_refl Hlater)
    as ((Hstart & _) & _ & _ & Hend & _).
  repeat split; assumption.
Defined.

Lemma cursor_drag_frame_witness :
  Py.eqb (mouseMode Plain.started_box) ViewBox.CursorMode = true
  /\ base (fst (ViewBox.mouseDragEvent Plain.started_box (fst Plain.finish)
                  None false))
     = base Plain.started_box.
Proof.
  split; [reflexivity |].
  apply (cursor_drag_frame Plain.started_box (fst Plain.finish) None);
    reflexivity.
Defined.

(* ================================================================== *)
(** * Arithmetic facts *)

Lemma R_unit_power : Spec.unit_power R.
Proof.
  split; cbn.
  - apply Rmult_0_l.
  - apply Rplus_0_l.
  - intros d. unfold Rpower. now rewrite ln_1, Rmult_0_r, exp_0.
Qed.

(** In binary64 [lit] gives the doubles Python reads the literals 0.15,
    0.02 and 1.02 as. *)
Lemma binary64_literals :
  @lit float binary64 15 100 = 0x1.3333333333333p-3%float
  /\ @lit float binary64 2 100 = 0x1.47ae147ae147bp-6%float
  /\ @lit float binary64 102 100 = 0x1.051eb851eb852p+0%float.
Proof.
  repeat split.
Qed.

(** The two facts of [Spec.unit_power] that do not involve [**], checked
    in binary64. *)
Lemma binary64_zero_times_plus_one :
  @fmul float binary64 (@of_int float binary64 0) (@lit float binary64 2 100)
  = @of_int float binary64 0
  /\ @fadd float binary64 (@of_int float binary64 0) (@of_int float binary64 1)
     = @of_int float binary64 1.
Proof.
  split; reflexivity.
Qed.

(** Over the reals the two bounds are symmetric about the cursor. *)
Lemma centered_x_range_real (a b p : R) (d : Z) :
  let r := @ViewBox.centered_x_range R R_float (a, b) d p in
  ((fst r + snd r) / 2 = p
   /\ snd r - fst r = (b - a) * (1 - 2 * IZR d * (15 / 100) / 120))%R.
Proof.
  unfold ViewBox.centered_x_range, lit; cbn. split; field.
Qed.

(** 1.02 ** 36 is above 2. *)
Lemma pow_102_100_36 : (2 < (102 / 100) ^ 36)%R.
Proof.
  assert (H : ((102 / 100) ^ 36 * 100 ^ 36 = 102 ^ 36)%R).
  { rewrite <- Rpow_mult_distr. f_equal. lra. }
  assert (Hd : (0 < 100 ^ 36)%R) by (apply pow_lt; lra).
  assert (Hc : (2 * 100 ^ 36 < 102 ^ 36)%R).
  { rewrite !pow_IZR, <- mult_IZR. apply IZR_lt. reflexivity. }
  rewrite <- H in Hc. nra.
Qed.

Lemma max_float_lt : (max_float < 2 ^ 1024)%R.
Proof.
  unfold max_float. change (2 ^ 1024)%R with (2 * 2 ^ 1023)%R.
  assert (0 < 2 ^ 1023)%R by (apply pow_lt; lra).
  assert (0 < / 2 ^ 52)%R by (apply Rinv_0_lt_compat, pow_lt; lra).
  nra.
Qed.

Lemma one_le_max_float : (1 <= max_float)%R.
Proof.
  unfold max_float.
  assert (1 <= 2 ^ 1023)%R by (apply pow_R1_Rle; lra).
  assert (/ 2 ^ 52 <= 1)%R.
  { rewrite <- Rinv_1. apply Rinv_le_contravar; [lra | apply pow_R1_Rle; lra]. }
  assert (0 < / 2 ^ 52)%R by (apply Rinv_0_lt_compat, pow_lt; lra).
  nra.
Qed.

(** From the exponent 37500 on, 1.02 ** y is beyond the largest float:
    Python raises [OverflowError]. *)
Lemma float_pow_overflows (y : R) :
  (37500 <= y)%R -> @float_pow R R_float_pow (102 / 100)%R y = None.
Proof.
  intros Hy. cbn.
  destruct (Rle_dec (Rpower (102 / 100) y) max_float) as [Hle |];
    [exfalso | reflexivity].
  assert (La : (ln 2 < 36 * ln (102 / 100))%R).
  { replace (36 * ln (102 / 100))%R with (ln ((102 / 100) ^ 36)).
    - apply ln_increasing; [lra | apply pow_102_100_36].
    - rewrite ln_pow by lra. simpl INR. lra. }
  assert (L2 : (0 < ln 2)%R) by (rewrite <- ln_1; apply ln_increasing; lra).
  assert (Hbig : (2 ^ 1024 < Rpower (102 / 100) y)%R).
  { replace (2 ^ 1024)%R with (Rpower 2 (INR 1024)) by (apply Rpower_pow; lra).
    unfold Rpower. apply exp_increasing.
    replace (INR 1024) with 1024%R by (rewrite INR_IZR_INZ; reflexivity).
    nra. }
  assert (Hm := max_float_lt). lra.
Qed.

(** For an exponent that is not positive, 1.02 ** y is at most 1: no
    overflow. *)
Lemma float_pow_returns (y : R) :
  (y <= 0)%R ->
  @float_pow R R_float_pow (102 / 100)%R y = Some (Rpower (102 / 100) y).
Proof.
  intros Hy. cbn.
  destruct (Rle_dec (Rpower (102 / 100) y) max_float) as [| Hn];
    [reflexivity | exfalso].
  apply Hn. apply Rle_trans with 1%R; [| apply one_le_max_float].
  assert (L : (0 < ln (102 / 100))%R)
    by (rewrite <- ln_1; apply ln_increasing; lra).
  unfold Rpower. rewrite <- exp_0.
  destruct (Rle_lt_or_eq_dec _ _ Hy) as [Hlt | ->].
  - left. apply exp_increasing. nra.
  - rewrite Rmult_0_l. right. reflexivity.
Qed.

(* ================================================================== *)
(** * Properties of the wheel handler and of the secondary-button drag *)

Section WheelBranches.
Context {F V T : Type} {PF : PyFloat F} {PFP : PyFloatPow F}
        {VB : ViewBoxBase F V T}.

Local Abbreviation vbox := (ViewBoxWithCursor F V).

(** The centring branch of [wheelEvent]. *)
Lemma wheel_centered (vb : vbox) (ev : WheelEvent F) (axis : option Axis)
    (c : Cursor F) :
  zoom_x_center_on_cursor vb = true ->
  cursor vb = Some c ->
  cursor_isVisible c = true ->
  let r := ViewBox.centered_x_range (fst (viewRange (base vb))) (we_delta ev)
                                    (cursor_value c) in
  ViewBox.wheelEvent vb ev axis
  = (Returned,
     (ViewBox.emit (sigRangeChangedManually (ViewBox.wheel_mask vb axis))
        (ViewBox.set_base (setXRange (fst r) (snd r) (of_int 0) (base vb)) vb),
      we_accept ev)).
Proof.
  intros Hs Hc Hv. unfold ViewBox.wheelEvent, ViewBox.visible_cursor.
  rewrite Hs, Hc, Hv. reflexivity.
Qed.

(** When the centring does not apply. *)
Lemma centring_off (vb : vbox) :
  (zoom_x_center_on_cursor vb = false
   \/ cursor vb = None
   \/ exists c, cursor vb = Some c /\ cursor_isVisible c = false) ->
  (if zoom_x_center_on_cursor vb then ViewBox.visible_cursor vb else None)
  = None.
Proof.
  intros Hoff. unfold ViewBox.visible_cursor.
  destruct Hoff as [-> | [-> | (c & -> & ->)]];
    [reflexivity | |]; now destruct (zoom_x_center_on_cursor vb).
Qed.

(** The scaling branch of [wheelEvent] when the power is computed. *)
Lemma wheel_scaled (vb : vbox) (ev : WheelEvent F) (axis : option Axis) (s : F) :
  (if zoom_x_center_on_cursor vb then ViewBox.visible_cursor vb else None)
  = None ->
  float_pow (lit 102 100)
            (fmul (of_int (we_delta ev)) (state_wheelScaleFactor (base vb)))
  = Some s ->
  let mask := ViewBox.wheel_mask vb axis in
  ViewBox.wheelEvent vb ev axis
  = (Returned,
     (ViewBox.emit (sigRangeChangedManually mask)
        (ViewBox.set_base
           (scaleBy (if fst mask then Some s else None)
                    (if snd mask then Some s else None)
                    (QTransform_map
                       (invertQTransform (childGroup_transform (base vb)))
                       (we_pos ev))
                    (resetTarget (base vb)))
           vb),
      we_accept ev)).
Proof.
  intros Hn Hs. unfold ViewBox.wheelEvent. rewrite Hn, Hs. reflexivity.
Qed.

(** The scaling branch of [wheelEvent] when the power overflows. *)
Lemma wheel_overflow (vb : vbox) (ev : WheelEvent F) (axis : option Axis) :
  (if zoom_x_center_on_cursor vb then ViewBox.visible_cursor vb else None)
  = None ->
  float_pow (lit 102 100)
            (fmul (of_int (we_delta ev)) (state_wheelScaleFactor (base vb)))
  = None ->
  ViewBox.wheelEvent vb ev axis
  = (Raised (OverflowError ViewBox.overflow_message), (vb, ev)).
Proof.
  intros Hn Hs. unfold ViewBox.wheelEvent. rewrite Hn, Hs. reflexivity.
Qed.

End WheelBranches.

(** Over the reals the centred range is as C4 states it. *)
Lemma wheel_centers_exactly_over_reals (P : PyFloatPow R) :
  Spec.wheel_centers_exactly R_float P.
Proof.
  intros V T VB vb ev axis c Hs Hc Hv. cbv zeta.
  rewrite (wheel_centered vb ev axis Hs Hc Hv). cbn [fst snd].
  destruct (fst (viewRange (base vb))) as [a b].
  destruct (centered_x_range_real a b (cursor_value c) (we_delta ev))
    as [Hmid Hw].
  eexists. eexists. split; [reflexivity |].
  split; [exact Hmid |].
  etransitivity; [exact Hw |]. reflexivity.
Qed.

Section Scaling.
Context {F V T : Type} {PF : PyFloat F} {PP : PyPow F} {PFP : PyFloatPow F}
        {VB : ViewBoxBase F V T}.

Local Abbreviation vbox := (ViewBoxWithCursor F V).

(** C4, as the code has it.  With the setting on and a visible cursor at
    [p], [wheelEvent] returns, accepts the event, emits one
    manual-range-change, and calls [setXRange] with padding 0 and the
    bounds [(p - w/2) - step] and [(p + w/2) + step], where [w] is the
    old width and [step] is [-w * (delta * 0.15 / 120)], each operation
    being one of the arithmetic at hand (binary64 for the program).
    Computed over the reals, these bounds have midpoint [p] and lie
    apart by the old width times [1 - 2 * delta * 0.15 / 120]. *)
Theorem wheel_centers_on_cursor
    (vb : vbox) (ev : WheelEvent F) (axis : option Axis) (c : Cursor F) :
  zoom_x_center_on_cursor vb = true ->
  cursor vb = Some c ->
  cursor_isVisible c = true ->
  let x_range := fst (viewRange (base vb)) in
  let p := cursor_value c in
  let w := fsub (snd x_range) (fst x_range) in
  let step :=
    fmul (fneg w) (fdiv (fmul (of_int (we_delta ev)) (lit 15 100)) (of_int 120)) in
  let lo := fsub (fsub p (fdiv w (of_int 2))) step in
  let hi := fadd (fadd p (fdiv w (of_int 2))) step in
  ViewBox.wheelEvent vb ev axis
  = (Returned,
     (ViewBox.emit (sigRangeChangedManually (ViewBox.wheel_mask vb axis))
        (ViewBox.set_base (setXRange lo hi (of_int 0) (base vb)) vb),
      we_accept ev))
  /\ forall P : PyFloatPow R, Spec.wheel_centers_exactly R_float P.
Proof.
  intros Hs Hc Hv x_range p w step lo hi. split.
  - exact (wheel_centered vb ev axis Hs Hc Hv).
  - exact wheel_centers_exactly_over_reals.
Qed.

(** C5, as the code has it.  When the centring does not apply (the
    setting is off, or no cursor is set, or the cursor is hidden) and
    [1.02 ** (delta * wheelScaleFactor)] is computed, [wheelEvent]
    returns, having cleared the pending target and then scaled about the
    event position mapped through the inverted child transform: an axis
    of the mask that is enabled gets that factor, an axis that is
    disabled gets none; one manual-range-change is emitted and the event
    is accepted.  When the power overflows, [wheelEvent] raises
    [OverflowError] and the view box and the event are as they were:
    no target cleared, nothing scaled, nothing emitted, the event not
    accepted. *)
Theorem wheel_scales_enabled_axes
    (vb : vbox) (ev : WheelEvent F) (axis : option Axis) :
  (zoom_x_center_on_cursor vb = false
   \/ cursor vb = None
   \/ exists c, cursor vb = Some c /\ cursor_isVisible c = false) ->
  let mask := ViewBox.wheel_mask vb axis in
  let exponent :=
    fmul (of_int (we_delta ev)) (state_wheelScaleFactor (base vb)) in
  let center :=
    QTransform_map (invertQTransform (childGroup_transform (base vb)))
                   (we_pos ev) in
  let r := ViewBox.wheelEvent vb ev axis in
  (forall s : F,
      float_pow (lit 102 100) exponent = Some s ->
      fst r = Returned
      /\ (exists sx sy : option F,
             base (fst (snd r)) = scaleBy sx sy center (resetTarget (base vb))
             /\ (fst mask = true -> sx = Some s)
             /\ (fst mask = false -> sx = None)
             /\ (snd mask = true -> sy = Some s)
             /\ (snd mask = false -> sy = None))
      /\ emitted (fst (snd r)) = emitted vb ++ [sigRangeChangedManually mask]
      /\ snd (snd r) = we_accept ev)
  /\ (float_pow (lit 102 100) exponent = None ->
      r = (Raised (OverflowError ViewBox.overflow_message), (vb, ev))).
Proof.
  intros Hoff mask exponent center r.
  assert (Hn := centring_off vb Hoff). split.
  - intros s Hs. unfold r. rewrite (wheel_scaled vb ev axis Hn Hs).
    cbv zeta. fold mask. fold center. cbn [fst snd].
    split; [reflexivity |]. split; [| split; reflexivity].
    exists (if fst mask then Some s else None),
           (if snd mask then Some s else None).
    split; [reflexivity |].
    destruct (fst mask), (snd mask); repeat split; congruence.
  - intros Hs. exact (wheel_overflow vb ev axis Hn Hs).
Qed.


End Scaling.

(* ================================================================== *)
(** * The wheel and the secondary-button drag on concrete inputs *)

Lemma wheel_centers_on_cursor_witness :
  zoom_x_center_on_cursor Plain.cursor_box_with_cursor = true
  /\ cursor Plain.cursor_box_with_cursor
     = Some {| cursor_isVisible := true; cursor_value := 3%R |}
  /\ fst (ViewBox.wheelEvent Plain.cursor_box_with_cursor (Plain.wheel 120) None)
     = Returned
  /\ exists lo hi : R,
       base (fst (snd (ViewBox.wheelEvent Plain.cursor_box_with_cursor
                         (Plain.wheel 120) None)))
       = setXRange lo hi 0%R Plain.v0.
Proof.
  split; [reflexivity | split; [reflexivity |]].
  destruct (wheel_centers_on_cursor (PFP := R_float_pow)
              Plain.cursor_box_with_cursor (Plain.wheel 120) None
              eq_refl eq_refl eq_refl) as [Hcall _].
  cbv zeta in Hcall. rewrite Hcall.
  split; [reflexivity |]. eexists. eexists. reflexivity.
Defined.

(** C4 as stated fails over binary64, whatever [**] computes: with the
    x range [0, 3], the cursor at 1 and one notch of the wheel (delta
    120), the bounds handed to [setXRange] have a midpoint below 1. *)
Lemma wheel_centering_inexact_in_binary64 :
  ~ exists PFP : PyFloatPow float, Spec.wheel_centers_exactly binary64 PFP.
Proof.
  intros [PFP H].
  destruct (H (Plain.view float) _
              (@Plain.plain_base float binary64) Plain.fbox Plain.notch None
              _ eq_refl eq_refl eq_refl) as (lo & hi & Hb & Hm & _).
  vm_compute in Hb. injection Hb as <- <-.
  apply (f_equal (fun m => PrimFloat.ltb m 1)) in Hm.
  vm_compute in Hm. discriminate Hm.
Qed.

(** The same input, with what is computed: the bounds are
    -0.050000000000000044 and 2.05, and their midpoint is
    0.9999999999999999, the binary64 number just below the cursor
    position 1. *)
Lemma centered_x_range_binary64 :
  let r := @ViewBox.centered_x_range float binary64 (0, 3)%float 120 1%float in
  fst r = (-0x1.99999999999a0p-5)%float
  /\ snd r = 0x1.0666666666666p+1%float
  /\ PrimFloat.div (PrimFloat.add (fst r) (snd r)) 2 = PrimFloat.next_down 1
  /\ PrimFloat.ltb (PrimFloat.next_down 1) 1 = true.
Proof.
  vm_compute. repeat split.
Qed.

(** Far from the origin the width is lost as well: with the x range
    [1e16, 1e16 + 4], the cursor at 1e16 + 2 and delta 120 the bounds
    handed over in binary64 are the old ones, 4 apart, where the exact
    width is 2.8. *)
Lemma centered_x_range_binary64_far :
  let a := binary64_of_int 10000000000000000 in
  let b := binary64_of_int 10000000000000004 in
  let p := binary64_of_int 10000000000000002 in
  @ViewBox.centered_x_range float binary64 (a, b) 120 p = (a, b)
  /\ PrimFloat.sub b a = 4%float.
Proof.
  vm_compute. split; reflexivity.
Qed.

Lemma wheel_scales_enabled_axes_witness :
  cursor Plain.cursor_box = None
  /\ float_pow (102 / 100)%R (120 * (-1 / 8))%R
     = Some (Rpower (102 / 100) (120 * (-1 / 8)))
  /\ fst (ViewBox.wheelEvent Plain.cursor_box (Plain.wheel 120) None) = Returned
  /\ exists sx sy : option R,
       base (fst (snd (ViewBox.wheelEvent Plain.cursor_box (Plain.wheel 120) None)))
       = scaleBy sx sy (mapSceneToView Plain.v0 (5, 5)%R)
                 (resetTarget Plain.v0)
       /\ sx = Some (Rpower (102 / 100) (120 * (-1 / 8)))
       /\ sy = None.
Proof.
  assert (Hp : float_pow (102 / 100)%R (120 * (-1 / 8))%R
               = Some (Rpower (102 / 100) (120 * (-1 / 8))))
    by (apply float_pow_returns; lra).
  split; [reflexivity | split; [exact Hp |]].
  destruct (wheel_scales_enabled_axes Plain.cursor_box (Plain.wheel 120) None
              (or_intror (or_introl eq_refl))) as [Hret _].
  destruct (Hret _ Hp) as (Ho & (sx & sy & Hb & Hx & _ & _ & Hy) & _).
  split; [exact Ho |].
  exists sx, sy. split; [exact Hb | split].
  - apply Hx. reflexivity.
  - apply Hy. reflexivity.
Defined.

(** C5 as stated fails: in Cursor mode with no cursor set and the wheel
    factor -1/8, a wheel event with delta -300000 asks for
    1.02 ** 37500, which overflows.  The handler raises [OverflowError];
    the view box and the event are untouched: the pending target is
    still there, nothing is scaled, nothing emitted. *)
Lemma wheel_overflow_scales_nothing :
  cursor Plain.cursor_box = None
  /\ ViewBox.wheelEvent Plain.cursor_box (Plain.wheel (-300000)) None
     = (Raised (OverflowError ViewBox.overflow_message),
        (Plain.cursor_box, Plain.wheel (-300000)))
  /\ Plain.pv_target (base Plain.cursor_box) = true.
Proof.
  split; [reflexivity | split; [| reflexivity]].
  apply wheel_overflow; [reflexivity |].
  change (@float_pow R R_float_pow (102 / 100)%R (-300000 * (-1 / 8))%R = None).
  apply float_pow_overflows. lra.
Qed.



(* ================================================================== *)
(** * Further properties: the menu over whole sessions *)

Section Sessions.
Context {F V T : Type} {PF : PyFloat F} {PP : PyPow F} {PFP : PyFloatPow F}
        {VB : ViewBoxBase F V T}.

Local Abbreviation vbox := (ViewBoxWithCursor F V).

Lemma drag_keeps_menu (vb : vbox) (ev : MouseDragEvent F)
    (axis : option Axis) (ignore_cursor : bool) :
  menu (fst (ViewBox.mouseDragEvent vb ev axis ignore_cursor)) = menu vb.
Proof.
  unfold ViewBox.mouseDragEvent.
  destruct (Py.eqb (mouseMode vb) ViewBox.CursorMode && negb ignore_cursor)%bool.
  - cbn. destruct (Z.eqb (de_button ev) Qt.LeftButton).
    + destruct (zoom_start vb); [destruct (de_isFinish ev) |]; reflexivity.
    + destruct (state_mouseEnabled (base vb)) as [[|] [|]],
        axis as [[|]|]; reflexivity.
  - cbn.
    destruct (Z.eqb (de_button ev) Qt.LeftButton
              || Z.eqb (de_button ev) Qt.MiddleButton)%bool.
    + destruct (state_mouseEnabled (base vb)) as [[|] [|]],
        axis as [[|]|]; reflexivity.
    + destruct (negb (Z.eqb (Z.land (de_button ev) Qt.RightButton) 0));
        reflexivity.
Qed.

Lemma handle_keeps_menu_and_mode (vb : vbox) (i : ViewBox.input) :
  menu (ViewBox.handle vb i) = menu vb
  /\ mouseMode (ViewBox.handle vb i) = mouseMode vb.
Proof.
  destruct i as [ev | ev | ev | ev axis ignore_cursor]; cbn [ViewBox.handle].
  - unfold ViewBox.keyPressEvent; cbn. now destruct (zoom_start vb).
  - unfold ViewBox.keyReleaseEvent; cbn. now destruct (zoom_start vb).
  - unfold ViewBox.mousePressEvent; cbn.
    now destruct (Py.eqb (mouseMode vb) ViewBox.CursorMode
                  && ViewBox.zoom_recognized (zoom vb))%bool.
  - split; [apply drag_keeps_menu |].
    apply (drag_gesture_frame vb ev axis ignore_cursor).
Qed.

(** A wheel event touches the inherited state and the log only. *)
Lemma wheel_keeps_rest (vb : vbox) (ev : WheelEvent F) (axis : option Axis) :
  let vb' := fst (snd (ViewBox.wheelEvent vb ev axis)) in
  menu vb' = menu vb /\ mouseMode vb' = mouseMode vb
  /\ zoom vb' = zoom vb /\ zoom_start vb' = zoom_start vb
  /\ cursor vb' = cursor vb
  /\ zoom_x_center_on_cursor vb' = zoom_x_center_on_cursor vb.
Proof.
  unfold ViewBox.wheelEvent.
  destruct (if zoom_x_center_on_cursor vb
            then ViewBox.visible_cursor vb else None);
    [| destruct (float_pow (lit 102 100)
                   (fmul (of_int (we_delta ev))
                         (state_wheelScaleFactor (base vb))))];
    cbn; repeat split; reflexivity.
Qed.

(** What a successful or failed [setMouseMode] leaves. *)
Lemma setMouseMode_menu (mode : pyobj) (vb : vbox) :
  List.length (mouseModes (menu vb)) = 3%nat ->
  let vb' := snd (ViewBox.setMouseMode mode vb) in
  vb' = vb
  \/ (Props.known_mode (mouseMode vb') /\ Props.menu_shows vb').
Proof.
  intros Hlen. unfold ViewBox.setMouseMode. rewrite contains_modes.
  destruct (Py.eqb mode ViewBox.PanMode || Py.eqb mode ViewBox.CursorMode
            || Py.eqb mode ViewBox.RectMode)%bool eqn:Hin; cbn [negb snd];
    [right | now left].
  assert (Hmenu := menu_after_state_change (ViewBox.set_mouseMode mode vb) Hlen).
  cbn [mouseMode ViewBox.set_mouseMode] in Hmenu.
  destruct (eq_mode_exclusive mode) as (Hp & Hc & Hr).
  assert (Hk : Props.known_mode mode).
  { unfold Props.known_mode.
    destruct (Py.eqb mode ViewBox.PanMode); [now left |].
    destruct (Py.eqb mode ViewBox.CursorMode); [right; now left |].
    right; right. exact Hin. }
  split; [exact Hk |].
  unfold Props.menu_shows.
  change (mouseMode (ViewBox.emit_sigStateChanged (ViewBox.set_mouseMode mode vb)))
    with mode.
  rewrite Hmenu.
  destruct (Py.eqb mode ViewBox.PanMode) eqn:Ep.
  - destruct (Hp eq_refl) as [-> ->]. repeat split; intros; congruence.
  - destruct (Py.eqb mode ViewBox.CursorMode) eqn:Ec.
    + destruct (Hc eq_refl) as [_ ->]. repeat split; intros; congruence.
    + repeat split; intros; congruence.
Qed.

Lemma setLeftButtonAction_cases (s : string) (vb : vbox) :
  snd (ViewBox.setLeftButtonAction s vb) = vb
  \/ exists mode, ViewBox.setLeftButtonAction s vb = ViewBox.setMouseMode mode vb.
Proof.
  unfold ViewBox.setLeftButtonAction.
  destruct (String.eqb (lower s) "rect"); [right; eauto |].
  destruct (String.eqb (lower s) "pan"); [right; eauto |].
  destruct (String.eqb (lower s) "cursor"); [right; eauto |].
  now left.
Qed.

Lemma step_keeps_menu_shown (vb : vbox) (o : Session.op) :
  Props.known_mode (mouseMode vb) /\ Props.menu_shows vb ->
  Props.known_mode (mouseMode (Session.step vb o))
  /\ Props.menu_shows (Session.step vb o).
Proof.
  intros Inv. assert (Hlen := proj1 (proj2 Inv)).
  assert (Hset : forall mode,
             Props.known_mode (mouseMode (snd (ViewBox.setMouseMode mode vb)))
             /\ Props.menu_shows (snd (ViewBox.setMouseMode mode vb))).
  { intros mode. destruct (setMouseMode_menu mode vb Hlen) as [E | H].
    - cbv zeta in E. now rewrite E.
    - exact H. }
  assert (Hleft : forall s,
             Props.known_mode (mouseMode (snd (ViewBox.setLeftButtonAction s vb)))
             /\ Props.menu_shows (snd (ViewBox.setLeftButtonAction s vb))).
  { intros s. destruct (setLeftButtonAction_cases s vb) as [-> | [mode ->]];
      [exact Inv | apply Hset]. }
  destruct o as [mode | s | i | | i | ev axis]; cbn [Session.step].
  - apply Hset.
  - apply Hleft.
  - unfold Session.trigger. destruct (Session.action_argument i);
      [apply Hleft | exact Inv].
  - unfold ViewBox.popup.
    destruct Inv as (Hk & Hl & Hv & Hrest). rewrite Hv. cbn.
    split; [exact Hk | split; [exact Hl | split; [exact Hv | exact Hrest]]].
  - destruct (handle_keeps_menu_and_mode vb i) as [Em Emode].
    unfold Props.menu_shows. now rewrite Em, Emode.
  - destruct (wheel_keeps_rest vb ev axis) as (Em & Emode & _).
    cbv zeta in Em, Emode. unfold Props.menu_shows. now rewrite Em, Emode.
Qed.

Lemma init_menu_shown (b : V) (m : pyobj) (center : bool) :
  Props.known_mode m ->
  Props.menu_shows (ViewBox.init (F:=F) b m center).
Proof.
  intros Hk. destruct (eq_mode_exclusive m) as (Hp & Hc & Hr).
  unfold Props.menu_shows, ViewBox.init, ViewBox.updateState; cbn.
  destruct (Py.eqb m ViewBox.PanMode) eqn:Ep.
  - destruct (Hp eq_refl) as [-> ->]. repeat split; intros; congruence.
  - destruct (Py.eqb m ViewBox.CursorMode) eqn:Ec.
    + destruct (Hc eq_refl) as [_ ->]. repeat split; intros; congruence.
    + repeat split; intros; congruence.
Qed.

Lemma session_keeps_menu_shown (ops : list Session.op) (vb : vbox) :
  Props.known_mode (mouseMode vb) /\ Props.menu_shows vb ->
  Props.known_mode (mouseMode (Session.session vb ops))
  /\ Props.menu_shows (Session.session vb ops).
Proof.
  revert vb. induction ops as [| o ops IH]; intros vb Inv; cbn.
  - exact Inv.
  - apply IH. now apply step_keeps_menu_shown.
Qed.

(** X1.  From construction with one of the three modes, after any
    sequence of mode-setter calls (failing ones included), menu actions,
    pop-ups, key, mouse and wheel events, the stored mode is still one
    of the three and the menu shows it: three entries, valid, exactly
    one checked, the one of the stored mode. *)
Theorem session_menu_shows_mode
    (b : V) (m : pyobj) (center : bool) (ops : list Session.op) :
  Props.known_mode m ->
  let vb := Session.session (ViewBox.init (F:=F) b m center) ops in
  Props.known_mode (mouseMode vb) /\ Props.menu_shows vb.
Proof.
  intros Hk. apply session_keeps_menu_shown.
  split; [exact Hk | now apply init_menu_shown].
Qed.

Lemma step_keeps_valid (vb : vbox) (o : Session.op) :
  valid (menu vb) = true -> valid (menu (Session.step vb o)) = true.
Proof.
  intros Hv.
  assert (Hset : forall mode,
             valid (menu (snd (ViewBox.setMouseMode mode vb))) = true).
  { intros mode. unfold ViewBox.setMouseMode.
    destruct (negb (Py.contains mode
                      [ViewBox.PanMode; ViewBox.CursorMode; ViewBox.RectMode]));
      [exact Hv | reflexivity]. }
  assert (Hleft : forall s,
             valid (menu (snd (ViewBox.setLeftButtonAction s vb))) = true).
  { intros s. destruct (setLeftButtonAction_cases s vb) as [-> | [mode ->]];
      [exact Hv | apply Hset]. }
  destruct o as [mode | s | i | | i | ev axis]; cbn [Session.step].
  - apply Hset.
  - apply Hleft.
  - unfold Session.trigger. destruct (Session.action_argument i);
      [apply Hleft | exact Hv].
  - unfold ViewBox.popup. now rewrite Hv.
  - now rewrite (proj1 (handle_keeps_menu_and_mode vb i)).
  - destruct (wheel_keeps_rest vb ev axis) as (Em & _).
    cbv zeta in Em. now rewrite Em.
Qed.

Lemma session_keeps_valid (ops : list Session.op) (vb : vbox) :
  valid (menu vb) = true -> valid (menu (Session.session vb ops)) = true.
Proof.
  revert vb. induction ops as [| o ops IH]; intros vb Hv; cbn.
  - exact Hv.
  - apply IH. now apply step_keeps_valid.
Qed.

(** X2.  The refresh in [popup] never runs: after construction and any
    sequence of calls and events the menu's [valid] flag is set (only
    [viewStateChanged] clears it, and refreshes at once), so [popup]
    leaves the view box and its menu as they are. *)
Theorem popup_never_refreshes
    (b : V) (m : pyobj) (center : bool) (ops : list Session.op) :
  let vb := Session.session (ViewBox.init (F:=F) b m center) ops in
  valid (menu vb) = true /\ ViewBox.popup vb = vb.
Proof.
  intros vb.
  assert (Hv : valid (menu vb) = true)
    by (apply session_keeps_valid; reflexivity).
  split; [exact Hv |]. unfold ViewBox.popup. now rewrite Hv.
Qed.

(** X3.  Triggering the menu action number [i] (0 pan, 1 cursor, 2
    rectangle) never raises, stores the mode of that action and leaves
    that very entry as the one checked entry: the strings bound to the
    actions, the order of [mouseModes] and the order [updateState]
    checks them in agree. *)
Theorem menu_action_round_trip (i : nat) (vb : vbox) :
  (i < 3)%nat ->
  List.length (mouseModes (menu vb)) = 3%nat ->
  let r := Session.trigger i vb in
  fst r = Returned
  /\ nth_error [ViewBox.PanMode; ViewBox.CursorMode; ViewBox.RectMode] i
     = Some (mouseMode (snd r))
  /\ nth_error (mouseModes (menu (snd r))) i = Some true
  /\ Spec.checked_count (mouseModes (menu (snd r))) = 1%nat.
Proof.
  intros Hi Hlen.
  destruct i as [| [| [| i]]]; [| | | lia]; cbv zeta.
  - change (Session.trigger 0 vb)
      with (Returned, ViewBox.emit_sigStateChanged
                        (ViewBox.set_mouseMode ViewBox.PanMode vb)).
    cbn [fst snd].
    rewrite (menu_after_state_change (ViewBox.set_mouseMode ViewBox.PanMode vb) Hlen).
    repeat split.
  - change (Session.trigger 1 vb)
      with (Returned, ViewBox.emit_sigStateChanged
                        (ViewBox.set_mouseMode ViewBox.CursorMode vb)).
    cbn [fst snd].
    rewrite (menu_after_state_change (ViewBox.set_mouseMode ViewBox.CursorMode vb) Hlen).
    repeat split.
  - change (Session.trigger 2 vb)
      with (Returned, ViewBox.emit_sigStateChanged
                        (ViewBox.set_mouseMode ViewBox.RectMode vb)).
    cbn [fst snd].
    rewrite (menu_after_state_change (ViewBox.set_mouseMode ViewBox.RectMode vb) Hlen).
    repeat split.
Qed.

End Sessions.

Lemma session_menu_shows_mode_witness :
  Props.known_mode ViewBox.PanMode
  /\ Props.menu_shows
       (Session.session Plain.pan_box
          [Session.SetLeftButtonAction "Cursor"; Session.SetMouseMode (PyInt 9);
           Session.Event (ViewBox.KeyPress Plain.shift_press);
           Session.Wheel (Plain.wheel 120) None; Session.Popup]).
Proof.
  assert (Hk : Props.known_mode ViewBox.PanMode) by (left; reflexivity).
  split; [exact Hk |].
  apply (session_menu_shows_mode Plain.v0 true
           [Session.SetLeftButtonAction "Cursor"; Session.SetMouseMode (PyInt 9);
            Session.Event (ViewBox.KeyPress Plain.shift_press);
            Session.Wheel (Plain.wheel 120) None; Session.Popup] Hk).
Defined.

Lemma menu_action_round_trip_witness :
  (1 < 3)%nat
  /\ List.length (mouseModes (menu Plain.pan_box)) = 3%nat
  /\ mouseMode (snd (Session.trigger 1 Plain.pan_box)) = ViewBox.CursorMode
  /\ nth_error (mouseModes (menu (snd (Session.trigger 1 Plain.pan_box)))) 1
     = Some true.
Proof.
  assert (H1 : (1 < 3)%nat) by lia.
  destruct (menu_action_round_trip Plain.pan_box H1 eq_refl)
    as (_ & Hmode & Hentry & _).
  split; [exact H1 | split; [reflexivity | split]].
  - exact (f_equal (fun o => match o with
                            | Some x => x
                            | None => ViewBox.CursorMode
                            end) (eq_sym Hmode)).
  - exact Hentry.
Defined.

(* ================================================================== *)
(** * Further properties: the branches of the drag handler *)

Section Drags.
Context {F V T : Type} {PF : PyFloat F} {PP : PyPow F} {PFP : PyFloatPow F}
        {VB : ViewBoxBase F V T}.

Local Abbreviation vbox := (ViewBoxWithCursor F V).

(** The scene movement of a drag event, sign-inverted. *)
Local Abbreviation movement ev :=
  (pmul (psub (de_scenePos ev) (de_lastScenePos ev)) (of_int (-1), of_int (-1))).

Lemma mask_takes_part (axis : option Axis) (enabled : bool * bool) :
  match axis with
  | Some a => ViewBox.mask_clear_other a enabled
  | None => enabled
  end
  = ((fst enabled && Props.takes_part axis XAxis)%bool,
     (snd enabled && Props.takes_part axis YAxis)%bool).
Proof.
  destruct enabled as [[|] [|]], axis as [[|]|]; reflexivity.
Qed.

(** X4.  Outside the cursor branch, a primary- or middle-button drag
    clears the pending target and translates along exactly the axes that
    are mouse-enabled and take part (a pinned axis excludes the other):
    an axis that is disabled or excluded is handed no offset, and when
    neither axis is left [translateBy] is not called at all.  One
    manual-range-change is emitted; the gesture state is not touched. *)
Theorem pan_drag_moves_enabled_axes
    (vb : vbox) (ev : MouseDragEvent F) (axis : option Axis)
    (ignore_cursor : bool) :
  (Py.eqb (mouseMode vb) ViewBox.CursorMode = false \/ ignore_cursor = true) ->
  (de_button ev = Qt.LeftButton \/ de_button ev = Qt.MiddleButton) ->
  let enabled := state_mouseEnabled (base vb) in
  let on_x := (fst enabled && Props.takes_part axis XAxis)%bool in
  let on_y := (snd enabled && Props.takes_part axis YAxis)%bool in
  let offset := ViewBox.drag_offset (base vb) (movement ev) (on_x, on_y) in
  let vb' := fst (ViewBox.mouseDragEvent vb ev axis ignore_cursor) in
  base vb'
  = (if (on_x || on_y)%bool
     then translateBy (if on_x then Some (fst offset) else None)
                      (if on_y then Some (snd offset) else None)
                      (resetTarget (base vb))
     else resetTarget (base vb))
  /\ emitted vb'
     = emitted vb ++ [sigRangeChangedManually (state_mouseEnabled (base vb'))]
  /\ zoom vb' = zoom vb
  /\ zoom_start vb' = zoom_start vb.
Proof.
  intros Hbranch Hb enabled on_x on_y offset vb'.
  assert (Hc : (Py.eqb (mouseMode vb) ViewBox.CursorMode && negb ignore_cursor)%bool
               = false).
  { destruct Hbranch as [-> | ->]; [reflexivity | apply andb_false_r]. }
  assert (Hbtn : (Z.eqb (de_button ev) Qt.LeftButton
                  || Z.eqb (de_button ev) Qt.MiddleButton)%bool = true).
  { destruct Hb as [-> | ->]; reflexivity. }
  unfold vb', ViewBox.mouseDragEvent. rewrite Hc. cbn [de_button de_accept].
  rewrite Hbtn, mask_takes_part.
  fold enabled. fold on_x. fold on_y.
  cbn [de_scenePos de_lastScenePos fst snd]. fold offset.
  destruct on_x, on_y; cbn; repeat split; reflexivity.
Qed.

(** X5.  In Cursor mode (cursor not ignored) every button but the
    primary one pans along x only, the secondary button included: the
    pending target is cleared and, if x is mouse-enabled and takes part,
    [translateBy] gets the x offset and y = 0; otherwise it is not
    called.  No cursor or zoom signal is emitted and the gesture state is
    not touched. *)
Theorem cursor_mode_other_buttons_pan_x
    (vb : vbox) (ev : MouseDragEvent F) (axis : option Axis) :
  Py.eqb (mouseMode vb) ViewBox.CursorMode = true ->
  de_button ev <> Qt.LeftButton ->
  let enabled := state_mouseEnabled (base vb) in
  let on_x := (fst enabled && Props.takes_part axis XAxis)%bool in
  let on_y := (snd enabled && Props.takes_part axis YAxis)%bool in
  let offset := ViewBox.drag_offset (base vb) (movement ev) (on_x, on_y) in
  let vb' := fst (ViewBox.mouseDragEvent vb ev axis false) in
  base vb'
  = (if on_x
     then translateBy (Some (fst offset)) (Some (of_int 0)) (resetTarget (base vb))
     else resetTarget (base vb))
  /\ emitted vb'
     = emitted vb ++ [sigRangeChangedManually (state_mouseEnabled (base vb'))]
  /\ zoom vb' = zoom vb
  /\ zoom_start vb' = zoom_start vb.
Proof.
  intros Hm Hb enabled on_x on_y offset vb'.
  unfold vb', ViewBox.mouseDragEvent. rewrite Hm. cbn [negb andb de_button de_accept].
  rewrite (proj2 (Z.eqb_neq _ _) Hb), mask_takes_part.
  fold enabled. fold on_x. fold on_y.
  cbn [de_scenePos de_lastScenePos fst snd]. fold offset.
  destruct on_x; cbn; repeat split; reflexivity.
Qed.

(** X6.  Outside the cursor branch, a drag whose button is neither the
    primary nor the middle one and has no secondary-button bit (a back or
    forward button, say) changes nothing in the view box. *)
Theorem other_button_drag_does_nothing
    (vb : vbox) (ev : MouseDragEvent F) (axis : option Axis)
    (ignore_cursor : bool) :
  (Py.eqb (mouseMode vb) ViewBox.CursorMode = false \/ ignore_cursor = true) ->
  de_button ev <> Qt.LeftButton ->
  de_button ev <> Qt.MiddleButton ->
  Z.land (de_button ev) Qt.RightButton = 0 ->
  fst (ViewBox.mouseDragEvent vb ev axis ignore_cursor) = vb.
Proof.
  intros Hbranch Hl Hmid Hr.
  assert (Hc : (Py.eqb (mouseMode vb) ViewBox.CursorMode && negb ignore_cursor)%bool
               = false).
  { destruct Hbranch as [-> | ->]; [reflexivity | apply andb_false_r]. }
  unfold ViewBox.mouseDragEvent. rewrite Hc. cbn [de_button de_accept].
  rewrite (proj2 (Z.eqb_neq _ _) Hl), (proj2 (Z.eqb_neq _ _) Hmid), Hr.
  reflexivity.
Qed.

(** X7.  The drag handler accepts the event on every path, whatever the
    mode, the button and the state, and changes nothing else of it.  The
    wheel handler accepts the event on every path on which it returns;
    when it raises (the power overflowed, which comes before
    [ev.accept()]) the event and the view box are as they were. *)
Theorem drag_and_wheel_events_accepted
    (vb : vbox) (dev : MouseDragEvent F) (wev : WheelEvent F)
    (axis : option Axis) (ignore_cursor : bool) :
  snd (ViewBox.mouseDragEvent vb dev axis ignore_cursor) = de_accept dev
  /\ de_accepted (snd (ViewBox.mouseDragEvent vb dev axis ignore_cursor)) = true
  /\ (fst (ViewBox.wheelEvent vb wev axis) = Returned ->
      snd (snd (ViewBox.wheelEvent vb wev axis)) = we_accept wev
      /\ we_accepted (snd (snd (ViewBox.wheelEvent vb wev axis))) = true)
  /\ (fst (ViewBox.wheelEvent vb wev axis) <> Returned ->
      snd (ViewBox.wheelEvent vb wev axis) = (vb, wev)).
Proof.
  assert (Hd : snd (ViewBox.mouseDragEvent vb dev axis ignore_cursor)
               = de_accept dev).
  { unfold ViewBox.mouseDragEvent.
    destruct (Py.eqb (mouseMode vb) ViewBox.CursorMode && negb ignore_cursor)%bool.
    - cbn [de_button de_accept].
      destruct (Z.eqb (de_button dev) Qt.LeftButton); [| reflexivity].
      cbn. destruct (zoom_start vb); [| reflexivity].
      now destruct (de_isFinish dev).
    - cbn [de_button de_accept].
      destruct (Z.eqb (de_button dev) Qt.LeftButton
                || Z.eqb (de_button dev) Qt.MiddleButton)%bool; [reflexivity |].
      now destruct (negb (Z.eqb (Z.land (de_button dev) Qt.RightButton) 0)). }
  rewrite Hd. split; [reflexivity | split; [reflexivity |]].
  unfold ViewBox.wheelEvent.
  destruct (if zoom_x_center_on_cursor vb
            then ViewBox.visible_cursor vb else None);
    [| destruct (float_pow (lit 102 100)
                   (fmul (of_int (we_delta wev))
                         (state_wheelScaleFactor (base vb))))];
    cbn; split; intros H; try discriminate H; try (now elim H);
    repeat split.
Qed.

(** X8.  With [ignore_cursor=True] the drag does not look at the mode:
    it does to a view box in any mode what it does to the same view box
    in any other mode. *)
Theorem ignored_cursor_drag_is_mode_blind
    (vb : vbox) (ev : MouseDragEvent F) (axis : option Axis) (m : pyobj) :
  fst (ViewBox.mouseDragEvent (ViewBox.set_mouseMode m vb) ev axis true)
  = ViewBox.set_mouseMode m (fst (ViewBox.mouseDragEvent vb ev axis true)).
Proof.
  unfold ViewBox.mouseDragEvent. rewrite !andb_false_r.
  cbn [de_button de_accept].
  destruct (Z.eqb (de_button ev) Qt.LeftButton
            || Z.eqb (de_button ev) Qt.MiddleButton)%bool.
  - cbn. destruct (state_mouseEnabled (base vb)) as [[|] [|]],
      axis as [[|]|]; reflexivity.
  - destruct (negb (Z.eqb (Z.land (de_button ev) Qt.RightButton) 0));
      reflexivity.
Qed.

End Drags.

(* ================================================================== *)
(** * Further properties: arming and the gesture state *)

Section Arming.
Context {F V T : Type} {PF : PyFloat F} {PP : PyPow F} {PFP : PyFloatPow F}
        {VB : ViewBoxBase F V T}.

Local Abbreviation vbox := (ViewBoxWithCursor F V).

Lemma armed_by_last_cons (z : option Z) (k : Props.key) (ks : list Props.key) :
  Props.armed_by_last z (k :: ks)
  = Props.armed_by_last (Props.armed_by_last z [k]) ks.
Proof.
  unfold Props.armed_by_last. cbn [rev app].
  destruct (rev ks) as [| x l]; [reflexivity |]. cbn.
  now destruct x.
Qed.

(** With no gesture in progress, key events only rewrite the armed
    modifier, and the last one decides. *)
Lemma run_keys (ks : list Props.key) :
  forall vb : vbox,
    zoom_start vb = None ->
    let vb' := ViewBox.run vb (map Props.key_input ks) in
    zoom vb' = Props.armed_by_last (zoom vb) ks
    /\ zoom_start vb' = None
    /\ base vb' = base vb
    /\ mouseMode vb' = mouseMode vb
    /\ emitted vb' = emitted vb.
Proof.
  induction ks as [| k ks IH]; intros vb Hz.
  - cbn. repeat split. exact Hz.
  - cbv zeta. cbn [map]. rewrite run_cons, armed_by_last_cons.
    assert (Hk : zoom (ViewBox.handle vb (Props.key_input k))
                 = Props.armed_by_last (zoom vb) [k]
                 /\ zoom_start (ViewBox.handle vb (Props.key_input (F:=F) k)) = None
                 /\ base (ViewBox.handle vb (Props.key_input (F:=F) k)) = base vb
                 /\ mouseMode (ViewBox.handle vb (Props.key_input (F:=F) k))
                    = mouseMode vb
                 /\ emitted (ViewBox.handle vb (Props.key_input (F:=F) k))
                    = emitted vb).
    { destruct k as [ev | ev]; cbn;
        unfold ViewBox.keyPressEvent, ViewBox.keyReleaseEvent;
        rewrite Hz; cbn; repeat split; exact Hz. }
    destruct Hk as (K1 & K2 & K3 & K4 & K5).
    destruct (IH _ K2) as (E1 & E2 & E3 & E4 & E5).
    cbv zeta in E1, E2, E3, E4, E5.
    rewrite E1, E2, E3, E4, E5, K1, K3, K4, K5. repeat split.
Qed.

(** X9.  With no gesture in progress, after any sequence of key events
    the armed modifier is the combination of the last event if that is a
    press and nothing if it is a release (of whatever key), and a mouse
    press that follows starts a gesture exactly when the mode is
    CursorMode and that last event pressed one of the four zoom
    combinations; nothing is emitted. *)
Theorem last_key_event_arms
    (vb : vbox) (ks : list Props.key) (pev : MousePressEvent F) :
  zoom_start vb = None ->
  let armed := Props.armed_by_last (zoom vb) ks in
  let vb1 := ViewBox.run vb (map Props.key_input ks) in
  let vb2 := fst (ViewBox.mousePressEvent vb1 pev) in
  zoom vb1 = armed
  /\ zoom vb2 = armed
  /\ zoom_start vb2
     = (if (Py.eqb (mouseMode vb) ViewBox.CursorMode
            && ViewBox.zoom_recognized armed)%bool
        then Some (mapSceneToView (base vb) (mp_scenePos pev))
        else None)
  /\ emitted vb2 = emitted vb.
Proof.
  intros Hz armed vb1 vb2.
  destruct (run_keys ks vb Hz) as (E1 & E2 & E3 & E4 & E5).
  fold vb1 in E1, E2, E3, E4, E5. fold armed in E1.
  unfold vb2, ViewBox.mousePressEvent. cbn [fst].
  rewrite E4, E1, E3.
  destruct (Py.eqb (mouseMode vb) ViewBox.CursorMode
            && ViewBox.zoom_recognized armed)%bool; cbn;
    repeat split; assumption.
Qed.

Lemma handle_outside_cursor_mode (vb : vbox) (i : ViewBox.input) :
  Py.eqb (mouseMode vb) ViewBox.CursorMode = false ->
  let vb' := ViewBox.handle vb i in
  mouseMode vb' = mouseMode vb
  /\ zoom_start vb' = zoom_start vb
  /\ (zoom_start vb <> None -> zoom vb' = zoom vb)
  /\ filter Spec.is_zoomChanged (emitted vb')
     = filter Spec.is_zoomChanged (emitted vb)
  /\ filter Spec.is_zoomFinished (emitted vb')
     = filter Spec.is_zoomFinished (emitted vb).
Proof.
  intros Hm.
  destruct i as [ev | ev | ev | ev axis ignore_cursor]; cbn [ViewBox.handle].
  - unfold ViewBox.keyPressEvent; cbn.
    destruct (zoom_start vb) eqn:Hz; cbn; rewrite ?Hz; repeat split; congruence.
  - unfold ViewBox.keyReleaseEvent; cbn.
    destruct (zoom_start vb) eqn:Hz; cbn; rewrite ?Hz; repeat split; congruence.
  - unfold ViewBox.mousePressEvent; cbn. rewrite Hm. cbn. repeat split.
  - unfold ViewBox.mouseDragEvent. rewrite Hm. cbn [andb de_button de_accept].
    destruct (Z.eqb (de_button ev) Qt.LeftButton
              || Z.eqb (de_button ev) Qt.MiddleButton)%bool.
    + destruct (state_mouseEnabled (base vb)) as [[|] [|]],
        axis as [[|]|]; cbn; rewrite ?filter_app, ?app_nil_r;
        repeat split; reflexivity.
    + destruct (negb (Z.eqb (Z.land (de_button ev) Qt.RightButton) 0));
        cbn; rewrite ?filter_app, ?app_nil_r; repeat split; reflexivity.
Qed.

Lemma run_outside_cursor_mode
    (vb : vbox) (evs : list ViewBox.input) :
  Py.eqb (mouseMode vb) ViewBox.CursorMode = false ->
  let vb' := ViewBox.run vb evs in
  mouseMode vb' = mouseMode vb
  /\ zoom_start vb' = zoom_start vb
  /\ (zoom_start vb <> None -> zoom vb' = zoom vb)
  /\ filter Spec.is_zoomChanged (emitted vb')
     = filter Spec.is_zoomChanged (emitted vb)
  /\ filter Spec.is_zoomFinished (emitted vb')
     = filter Spec.is_zoomFinished (emitted vb).
Proof.
  revert vb. induction evs as [| i evs IH]; intros vb Hm.
  - cbn. repeat split.
  - cbv zeta. rewrite run_cons.
    destruct (handle_outside_cursor_mode vb i Hm) as (H1 & H2 & H3 & H4 & H5).
    cbv zeta in H1, H2, H3, H4, H5.
    assert (Hm' : Py.eqb (mouseMode (ViewBox.handle vb i)) ViewBox.CursorMode
                  = false) by (rewrite H1; exact Hm).
    destruct (IH _ Hm') as (E1 & E2 & E3 & E4 & E5).
    cbv zeta in E1, E2, E3, E4, E5.
    rewrite E1, E2, E4, E5, H1, H2, H4, H5. repeat split.
    intros Hs. rewrite E3 by (rewrite H2; exact Hs). now apply H3.
Qed.

(** X10.  Outside Cursor mode the gesture state is frozen: no sequence of
    key, mouse-press and drag events starts, moves or clears the start
    point or emits a zoom signal; and if a start point is recorded (the
    mode was changed during a gesture) the armed modifier cannot change
    either. *)
Theorem gesture_frozen_outside_cursor_mode
    (vb : vbox) (evs : list ViewBox.input) :
  Py.eqb (mouseMode vb) ViewBox.CursorMode = false ->
  let vb' := ViewBox.run vb evs in
  mouseMode vb' = mouseMode vb
  /\ zoom_start vb' = zoom_start vb
  /\ (zoom_start vb <> None -> zoom vb' = zoom vb)
  /\ filter Spec.is_zoomChanged (emitted vb')
     = filter Spec.is_zoomChanged (emitted vb)
  /\ filter Spec.is_zoomFinished (emitted vb')
     = filter Spec.is_zoomFinished (emitted vb).
Proof.
  apply run_outside_cursor_mode.
Qed.

(** X17.  A mode change does not cancel a gesture, it suspends it.  If
    the mode is set to PanMode or RectMode while a start point is
    recorded, then whatever key, mouse-press and drag events follow, once
    the mode is set back to CursorMode the old start point and armed
    modifier are still there and the next primary-button drag reports
    them in its zoom-changed signal. *)
Theorem gesture_survives_mode_change
    (vb : vbox) (start : point F) (m : pyobj) (evs : list ViewBox.input)
    (dev : MouseDragEvent F) (axis : option Axis) :
  zoom_start vb = Some start ->
  m = ViewBox.PanMode \/ m = ViewBox.RectMode ->
  de_button dev = Qt.LeftButton ->
  de_isFinish dev = false ->
  let vb1 := snd (ViewBox.setMouseMode m vb) in
  let vb2 := ViewBox.run vb1 evs in
  let vb3 := snd (ViewBox.setMouseMode ViewBox.CursorMode vb2) in
  zoom_start vb1 = Some start
  /\ zoom_start vb3 = Some start
  /\ zoom vb3 = zoom vb
  /\ emitted (fst (ViewBox.mouseDragEvent vb3 dev axis false))
     = emitted vb3 ++ Spec.moved_signals (base vb3) start (zoom vb) dev.
Proof.
  intros Hs Hm Hb Hf vb1 vb2 vb3.
  assert (H1 : Py.eqb (mouseMode vb1) ViewBox.CursorMode = false
               /\ zoom_start vb1 = Some start /\ zoom vb1 = zoom vb).
  { unfold vb1. destruct Hm as [-> | ->]; cbn; repeat split; exact Hs. }
  destruct H1 as (M1 & S1 & Z1).
  destruct (run_outside_cursor_mode vb1 evs M1) as (_ & S2 & Z2 & _).
  fold vb2 in S2, Z2.
  assert (Z2' : zoom vb2 = zoom vb).
  { rewrite Z2 by (rewrite S1; discriminate). exact Z1. }
  assert (H3 : Py.eqb (mouseMode vb3) ViewBox.CursorMode = true
               /\ zoom_start vb3 = Some start /\ zoom vb3 = zoom vb).
  { unfold vb3. cbn. rewrite S2, S1, Z2'. repeat split. }
  destruct H3 as (M3 & S3 & Z3).
  split; [exact S1 | split; [exact S3 | split; [exact Z3 |]]].
  rewrite (drag_primary_moving vb3 dev axis M3 Hb S3 Hf), Z3.
  cbn. unfold Spec.moved_signals. now rewrite <- app_assoc.
Qed.

(** X18.  The handlers tell CursorMode from the rest and nothing more:
    a key, mouse-press, drag or wheel event does to a view box in any
    mode that is not CursorMode (RectMode, say) what it does to the same
    view box in any other such mode (PanMode, say), raising when it
    raises there.  Rectangle mode pans and scales like Pan mode. *)
Theorem handlers_only_tell_cursor_mode
    (vb : vbox) (m1 m2 : pyobj) (i : ViewBox.input)
    (wev : WheelEvent F) (axis : option Axis) :
  Py.eqb m1 ViewBox.CursorMode = false ->
  Py.eqb m2 ViewBox.CursorMode = false ->
  ViewBox.handle (ViewBox.set_mouseMode m1 vb) i
  = ViewBox.set_mouseMode m1 (ViewBox.handle (ViewBox.set_mouseMode m2 vb) i)
  /\ fst (ViewBox.wheelEvent (ViewBox.set_mouseMode m1 vb) wev axis)
     = fst (ViewBox.wheelEvent (ViewBox.set_mouseMode m2 vb) wev axis)
  /\ fst (snd (ViewBox.wheelEvent (ViewBox.set_mouseMode m1 vb) wev axis))
     = ViewBox.set_mouseMode m1
         (fst (snd (ViewBox.wheelEvent (ViewBox.set_mouseMode m2 vb) wev axis))).
Proof.
  intros H1 H2. split; [| apply and_comm].
  - destruct i as [ev | ev | ev | ev ax ignore_cursor]; cbn [ViewBox.handle].
    + unfold ViewBox.keyPressEvent; cbn. now destruct (zoom_start vb).
    + unfold ViewBox.keyReleaseEvent; cbn. now destruct (zoom_start vb).
    + unfold ViewBox.mousePressEvent; cbn. now rewrite H1, H2.
    + unfold ViewBox.mouseDragEvent.
      cbn [mouseMode ViewBox.set_mouseMode]. rewrite H1, H2.
      cbn [andb de_button de_accept].
      destruct (Z.eqb (de_button ev) Qt.LeftButton
                || Z.eqb (de_button ev) Qt.MiddleButton)%bool.
      * cbn. destruct (state_mouseEnabled (base vb)) as [[|] [|]],
          ax as [[|]|]; reflexivity.
      * destruct (negb (Z.eqb (Z.land (de_button ev) Qt.RightButton) 0));
          reflexivity.
  - unfold ViewBox.wheelEvent, ViewBox.wheel_mask, ViewBox.visible_cursor.
    cbn [mouseMode ViewBox.set_mouseMode zoom_x_center_on_cursor cursor base].
    rewrite H1, H2.
    destruct (zoom_x_center_on_cursor vb); [destruct (cursor vb) as [c |];
      [destruct (cursor_isVisible c) |] |];
      try (split; reflexivity);
      destruct (float_pow (lit 102 100)
                  (fmul (of_int (we_delta wev))
                        (state_wheelScaleFactor (base vb))));
      split; reflexivity.
Qed.

(** X11.  A mouse press during a gesture restarts it.  In any state
    reached from an idle one by key, mouse-press and drag events, if a
    start point is recorded then a further mouse press moves it to the
    new press position; the armed modifier stays, no signal tells of the
    restart, and the next drag reports the new start point. *)
Theorem press_during_gesture_restarts
    (vb0 : vbox) (evs : list ViewBox.input) (pev : MousePressEvent F)
    (dev : MouseDragEvent F) (axis : option Axis) :
  zoom_start vb0 = None ->
  zoom_start (ViewBox.run vb0 evs) <> None ->
  de_button dev = Qt.LeftButton ->
  de_isFinish dev = false ->
  let vb := ViewBox.run vb0 evs in
  let start := mapSceneToView (base vb) (mp_scenePos pev) in
  let vb' := fst (ViewBox.mousePressEvent vb pev) in
  zoom_start vb' = Some start
  /\ zoom vb' = zoom vb
  /\ emitted vb' = emitted vb
  /\ emitted (fst (ViewBox.mouseDragEvent vb' dev axis false))
     = emitted vb ++ Spec.moved_signals (base vb) start (zoom vb) dev.
Proof.
  intros H0 Hs Hb Hf vb start vb'.
  assert (Inv : Spec.gesture_inv vb).
  { apply run_preserves_gesture_inv. unfold Spec.gesture_inv. congruence. }
  destruct (Inv Hs) as [Hm Hr].
  assert (E : vb' = ViewBox.set_zoom_start (Some start) vb).
  { unfold vb', ViewBox.mousePressEvent. now rewrite Hm, Hr. }
  rewrite E. split; [reflexivity | split; [reflexivity | split; [reflexivity |]]].
  rewrite (drag_primary_moving (ViewBox.set_zoom_start (Some start) vb) dev axis
             (start := start) Hm Hb eq_refl Hf).
  cbn. unfold Spec.moved_signals. now rewrite <- app_assoc.
Qed.

End Arming.

(* ================================================================== *)
(** * Further properties: the wheel and the pinned axis *)

Section Wheels.
Context {F V T : Type} {PF : PyFloat F} {PP : PyPow F} {PFP : PyFloatPow F}
        {VB : ViewBoxBase F V T}.

Local Abbreviation vbox := (ViewBoxWithCursor F V).

Lemma wheel_mask_takes_part (vb : vbox) (axis : option Axis) :
  ViewBox.wheel_mask vb axis
  = if Py.eqb (mouseMode vb) ViewBox.CursorMode then (true, false)
    else ((fst (state_mouseEnabled (base vb)) && Props.takes_part axis XAxis)%bool,
          (snd (state_mouseEnabled (base vb)) && Props.takes_part axis YAxis)%bool).
Proof.
  unfold ViewBox.wheel_mask.
  destruct (Py.eqb (mouseMode vb) ViewBox.CursorMode); [reflexivity |].
  destruct (state_mouseEnabled (base vb)) as [[|] [|]], axis as [[|]|];
    reflexivity.
Qed.

(** X12.  A wheel event touches neither the mode, the gesture state, the
    cursor nor the menu, whether it returns or raises.  When it returns,
    centred on the cursor or not, it has emitted exactly one
    manual-range-change and nothing else; the mask it reports is
    (x, not y) in Cursor mode, whatever the axis under the pointer and
    the mouse-enabled flags; in the other modes an axis is reported when
    it is mouse-enabled and takes part.  When it raises (the power
    overflowed, which comes before the emission) it has emitted
    nothing. *)
Theorem wheel_reports_mask
    (vb : vbox) (ev : WheelEvent F) (axis : option Axis) :
  let enabled := state_mouseEnabled (base vb) in
  let r := ViewBox.wheelEvent vb ev axis in
  let vb' := fst (snd r) in
  (fst r = Returned ->
   emitted vb'
   = emitted vb
     ++ [sigRangeChangedManually
           (if Py.eqb (mouseMode vb) ViewBox.CursorMode then (true, false)
            else ((fst enabled && Props.takes_part axis XAxis)%bool,
                  (snd enabled && Props.takes_part axis YAxis)%bool))])
  /\ (fst r <> Returned -> emitted vb' = emitted vb)
  /\ mouseMode vb' = mouseMode vb
  /\ zoom vb' = zoom vb
  /\ zoom_start vb' = zoom_start vb
  /\ cursor vb' = cursor vb
  /\ menu vb' = menu vb.
Proof.
  intros enabled r vb'.
  destruct (wheel_keeps_rest vb ev axis) as (Em & Emode & Ez & Es & Ec & _).
  fold r in Em, Emode, Ez, Es, Ec. fold vb' in Em, Emode, Ez, Es, Ec.
  split; [| split; [| repeat split; assumption]].
  - unfold vb', r, ViewBox.wheelEvent. rewrite wheel_mask_takes_part.
    fold enabled.
    destruct (if zoom_x_center_on_cursor vb
              then ViewBox.visible_cursor vb else None);
      [| destruct (float_pow (lit 102 100)
                     (fmul (of_int (we_delta ev))
                           (state_wheelScaleFactor (base vb))))];
      cbn; intros H; try discriminate H; reflexivity.
  - unfold vb', r, ViewBox.wheelEvent.
    destruct (if zoom_x_center_on_cursor vb
              then ViewBox.visible_cursor vb else None);
      [| destruct (float_pow (lit 102 100)
                     (fmul (of_int (we_delta ev))
                           (state_wheelScaleFactor (base vb))))];
      cbn; intros H; try (now elim H); reflexivity.
Qed.

(** X13.  In Cursor mode, when the centring does not apply and the power
    is computed, the wheel scales along x only: [scaleBy] gets the
    factor for x and none for y, also when the wheel is turned over the
    y axis and also when x is not mouse-enabled.  When the power
    overflows the handler raises [OverflowError] and scales nothing. *)
Theorem cursor_mode_wheel_scales_x_only
    (vb : vbox) (ev : WheelEvent F) (axis : option Axis) :
  Py.eqb (mouseMode vb) ViewBox.CursorMode = true ->
  (zoom_x_center_on_cursor vb = false
   \/ cursor vb = None
   \/ exists c, cursor vb = Some c /\ cursor_isVisible c = false) ->
  let exponent :=
    fmul (of_int (we_delta ev)) (state_wheelScaleFactor (base vb)) in
  let r := ViewBox.wheelEvent vb ev axis in
  (forall s : F,
      float_pow (lit 102 100) exponent = Some s ->
      fst r = Returned
      /\ base (fst (snd r))
         = scaleBy (Some s) None
             (QTransform_map (invertQTransform (childGroup_transform (base vb)))
                             (we_pos ev))
             (resetTarget (base vb)))
  /\ (float_pow (lit 102 100) exponent = None ->
      r = (Raised (OverflowError ViewBox.overflow_message), (vb, ev))).
Proof.
  intros Hm Hoff exponent r.
  assert (Hn := centring_off vb Hoff). split.
  - intros s Hs. unfold r. rewrite (wheel_scaled vb ev axis Hn Hs). cbv zeta.
    rewrite wheel_mask_takes_part, Hm. split; reflexivity.
  - intros Hs. exact (wheel_overflow vb ev axis Hn Hs).
Qed.

(** X14.  A secondary-button drag outside the cursor branch that is
    pinned to one axis scales the other axis by 1 (or hands it no factor
    if it is not mouse-enabled), whatever the drag distance and whether
    or not the aspect ratio is locked.  The arithmetic is any that
    satisfies [Spec.unit_power]. *)
Theorem pinned_secondary_drag_spares_other_axis
    (vb : vbox) (ev : MouseDragEvent F) (a : Axis) (ignore_cursor : bool) :
  Spec.unit_power F ->
  (Py.eqb (mouseMode vb) ViewBox.CursorMode = false \/ ignore_cursor = true) ->
  de_button ev = Qt.RightButton ->
  let enabled := state_mouseEnabled (base vb) in
  let vb' := fst (ViewBox.mouseDragEvent vb ev (Some a) ignore_cursor) in
  exists (x y : option F) (center : point F),
    base vb' = scaleBy x y center (resetTarget (base vb))
    /\ match a with
       | XAxis => y = (if snd enabled then Some (of_int 1) else None)
       | YAxis => x = (if fst enabled then Some (of_int 1) else None)
       end.
Proof.
  intros [Hmul Hadd Hpow] Hbranch Hb enabled vb'.
  assert (Hc : (Py.eqb (mouseMode vb) ViewBox.CursorMode && negb ignore_cursor)%bool
               = false).
  { destruct Hbranch as [-> | ->]; [reflexivity | apply andb_false_r]. }
  unfold vb', ViewBox.mouseDragEvent. rewrite Hc. cbn [de_button de_accept].
  rewrite Hb.
  change (Z.eqb Qt.RightButton Qt.LeftButton
          || Z.eqb Qt.RightButton Qt.MiddleButton)%bool with false.
  change (negb (Z.eqb (Z.land Qt.RightButton Qt.RightButton) 0)) with true.
  fold enabled.
  destruct a; destruct (state_aspectLocked (base vb)) as [ratio |];
    cbn [fst snd base ViewBox.emit ViewBox.set_base ViewBox.mask_clear_other];
    change (@b2f F PF false) with (@of_int F PF 0);
    rewrite ?Hmul, ?Hadd, ?Hpow;
    do 3 eexists; (split; [reflexivity |]); reflexivity.
Qed.

End Wheels.

(* ================================================================== *)
(** * The further properties on concrete inputs *)

Lemma pan_drag_moves_enabled_axes_witness :
  Py.eqb (mouseMode Plain.pan_box) ViewBox.CursorMode = false
  /\ exists dx : R,
       base (fst (ViewBox.mouseDragEvent Plain.pan_box
                    (Plain.drag Qt.LeftButton (2, 3)%R (4, 3)%R false)
                    (Some XAxis) false))
       = translateBy (Some dx) None (resetTarget Plain.v0).
Proof.
  split; [reflexivity |].
  destruct (pan_drag_moves_enabled_axes Plain.pan_box
              (Plain.drag Qt.LeftButton (2, 3)%R (4, 3)%R false)
              (Some XAxis) (ignore_cursor := false)
              (or_introl eq_refl) (or_introl eq_refl)) as (Hb & _).
  eexists. rewrite Hb. reflexivity.
Defined.

Lemma cursor_mode_other_buttons_pan_x_witness :
  Py.eqb (mouseMode Plain.cursor_box) ViewBox.CursorMode = true
  /\ Qt.RightButton <> Qt.LeftButton
  /\ exists dx : R,
       base (fst (ViewBox.mouseDragEvent Plain.cursor_box
                    (Plain.drag Qt.RightButton (2, 3)%R (4, 7)%R false)
                    None false))
       = translateBy (Some dx) (Some 0%R) (resetTarget Plain.v0).
Proof.
  assert (Hne : Qt.RightButton <> Qt.LeftButton) by discriminate.
  split; [reflexivity | split; [exact Hne |]].
  destruct (cursor_mode_other_buttons_pan_x Plain.cursor_box
              (Plain.drag Qt.RightButton (2, 3)%R (4, 7)%R false)
              None eq_refl Hne) as (Hb & _).
  eexists. rewrite Hb. reflexivity.
Defined.

Lemma other_button_drag_does_nothing_witness :
  Z.land 8 Qt.RightButton = 0
  /\ fst (ViewBox.mouseDragEvent Plain.pan_box
            (Plain.drag 8 (2, 3)%R (4, 7)%R false) None false)
     = Plain.pan_box.
Proof.
  split; [reflexivity |].
  apply (other_button_drag_does_nothing Plain.pan_box
           (Plain.drag 8 (2, 3)%R (4, 7)%R false) None (ignore_cursor := false)
           (or_introl eq_refl));
    [discriminate | discriminate | reflexivity].
Defined.

Lemma last_key_event_arms_witness :
  zoom_start Plain.cursor_box = None
  /\ zoom_start
       (fst (ViewBox.mousePressEvent
               (ViewBox.run Plain.cursor_box
                  (map Props.key_input
                     [Props.Press Plain.shift_press;
                      Props.Release Plain.shift_release]))
               (Plain.press_at 2 3))) = None.
Proof.
  split; [reflexivity |].
  destruct (last_key_event_arms Plain.cursor_box
              [Props.Press Plain.shift_press; Props.Release Plain.shift_release]
              (Plain.press_at 2 3) eq_refl) as (_ & _ & Hs & _).
  rewrite Hs. reflexivity.
Defined.

Lemma gesture_frozen_outside_cursor_mode_witness :
  Py.eqb (mouseMode (snd (ViewBox.setMouseMode ViewBox.PanMode Plain.started_box)))
         ViewBox.CursorMode = false
  /\ zoom_start
       (ViewBox.run (snd (ViewBox.setMouseMode ViewBox.PanMode Plain.started_box))
          [ViewBox.KeyRelease Plain.shift_release; Spec.dragged Plain.finish])
     = zoom_start Plain.started_box.
Proof.
  split; [reflexivity |].
  apply (gesture_frozen_outside_cursor_mode
           (snd (ViewBox.setMouseMode ViewBox.PanMode Plain.started_box))
           [ViewBox.KeyRelease Plain.shift_release; Spec.dragged Plain.finish]
           eq_refl).
Defined.

Lemma press_during_gesture_restarts_witness :
  zoom_start Plain.cursor_box = None
  /\ zoom_start Plain.started_box <> None
  /\ zoom_start (fst (ViewBox.mousePressEvent Plain.started_box (Plain.press_at 5 5)))
     = Some (mapSceneToView Plain.v0 (5, 5)%R).
Proof.
  assert (Hs : zoom_start Plain.started_box <> None) by discriminate.
  split; [reflexivity | split; [exact Hs |]].
  apply (press_during_gesture_restarts Plain.cursor_box
           [ViewBox.KeyPress Plain.shift_press;
            ViewBox.MousePress (Plain.press_at 2 3)]
           (Plain.press_at 5 5)
           (Plain.drag Qt.LeftButton (5, 5)%R (6, 5)%R false) None
           eq_refl Hs eq_refl eq_refl).
Defined.

Lemma cursor_mode_wheel_scales_x_only_witness :
  Py.eqb (mouseMode Plain.cursor_box) ViewBox.CursorMode = true
  /\ cursor Plain.cursor_box = None
  /\ float_pow (102 / 100)%R (120 * (-1 / 8))%R
     = Some (Rpower (102 / 100) (120 * (-1 / 8)))
  /\ base (fst (snd (ViewBox.wheelEvent Plain.cursor_box (Plain.wheel 120)
                       (Some YAxis))))
     = scaleBy (Some (Rpower (102 / 100) (120 * (-1 / 8)))) None
               (mapSceneToView Plain.v0 (5, 5)%R) (resetTarget Plain.v0).
Proof.
  assert (Hp : float_pow (102 / 100)%R (120 * (-1 / 8))%R
               = Some (Rpower (102 / 100) (120 * (-1 / 8))))
    by (apply float_pow_returns; lra).
  split; [reflexivity | split; [reflexivity | split; [exact Hp |]]].
  destruct (cursor_mode_wheel_scales_x_only Plain.cursor_box (Plain.wheel 120)
              (Some YAxis) eq_refl (or_intror (or_introl eq_refl)))
    as [Hret _].
  destruct (Hret _ Hp) as [_ Hb]. rewrite Hb. reflexivity.
Defined.

Lemma drag_and_wheel_events_accepted_witness :
  fst (ViewBox.wheelEvent Plain.cursor_box (Plain.wheel (-300000)) None)
  <> Returned
  /\ snd (ViewBox.wheelEvent Plain.cursor_box (Plain.wheel (-300000)) None)
     = (Plain.cursor_box, Plain.wheel (-300000)).
Proof.
  assert (Hr : ViewBox.wheelEvent Plain.cursor_box (Plain.wheel (-300000)) None
               = (Raised (OverflowError ViewBox.overflow_message),
                  (Plain.cursor_box, Plain.wheel (-300000)))).
  { apply wheel_overflow; [reflexivity |].
    change (@float_pow R R_float_pow (102 / 100)%R (-300000 * (-1 / 8))%R = None).
    apply float_pow_overflows. lra. }
  assert (Hne : fst (ViewBox.wheelEvent Plain.cursor_box
                       (Plain.wheel (-300000)) None) <> Returned)
    by (rewrite Hr; discriminate).
  split; [exact Hne |].
  apply (drag_and_wheel_events_accepted Plain.cursor_box
           (fst Plain.finish) (Plain.wheel (-300000)) None false). exact Hne.
Defined.

Lemma wheel_reports_mask_witness :
  fst (ViewBox.wheelEvent Plain.cursor_box_with_cursor (Plain.wheel 120)
         (Some YAxis)) = Returned
  /\ emitted (fst (snd (ViewBox.wheelEvent Plain.cursor_box_with_cursor
                          (Plain.wheel 120) (Some YAxis))))
     = [sigRangeChangedManually (true, false)].
Proof.
  split; [reflexivity |].
  apply (wheel_reports_mask Plain.cursor_box_with_cursor (Plain.wheel 120)
           (Some YAxis)). reflexivity.
Defined.

Lemma pinned_secondary_drag_spares_other_axis_witness :
  Py.eqb (mouseMode Plain.pan_box) ViewBox.CursorMode = false
  /\ exists (y : option R) (center : point R),
       base (fst (ViewBox.mouseDragEvent Plain.pan_box
                    (Plain.drag Qt.RightButton (2, 3)%R (40, 50)%R false)
                    (Some YAxis) false))
       = scaleBy (Some 1%R) y center (resetTarget Plain.v0).
Proof.
  split; [reflexivity |].
  destruct (pinned_secondary_drag_spares_other_axis Plain.pan_box
              (Plain.drag Qt.RightButton (2, 3)%R (40, 50)%R false)
              YAxis (ignore_cursor := false)
              R_unit_power (or_introl eq_refl) eq_refl)
    as (x & y & center & Hb & Hx).
  exists y, center. rewrite Hb, Hx. reflexivity.
Defined.

Lemma gesture_survives_mode_change_witness :
  zoom_start Plain.started_box = Some (mapSceneToView Plain.v0 (2, 3)%R)
  /\ zoom_start
       (snd (ViewBox.setMouseMode ViewBox.CursorMode
               (ViewBox.run
                  (snd (ViewBox.setMouseMode ViewBox.PanMode Plain.started_box))
                  [ViewBox.KeyRelease Plain.shift_release;
                   Spec.dragged Plain.finish])))
     = Some (mapSceneToView Plain.v0 (2, 3)%R).
Proof.
  split; [reflexivity |].
  apply (gesture_survives_mode_change Plain.started_box
           [ViewBox.KeyRelease Plain.shift_release; Spec.dragged Plain.finish]
           (Plain.drag Qt.LeftButton (5, 5)%R (6, 5)%R false) None
           eq_refl (or_introl eq_refl) eq_refl eq_refl).
Defined.

Lemma handlers_only_tell_cursor_mode_witness :
  Py.eqb ViewBox.RectMode ViewBox.CursorMode = false
  /\ Py.eqb ViewBox.PanMode ViewBox.CursorMode = false
  /\ ViewBox.handle (ViewBox.set_mouseMode ViewBox.RectMode Plain.pan_box)
       (Spec.dragged Plain.finish)
     = ViewBox.set_mouseMode ViewBox.RectMode
         (ViewBox.handle (ViewBox.set_mouseMode ViewBox.PanMode Plain.pan_box)
            (Spec.dragged Plain.finish)).
Proof.
  split; [reflexivity | split; [reflexivity |]].
  apply (handlers_only_tell_cursor_mode Plain.pan_box
           ViewBox.RectMode ViewBox.PanMode
           (Spec.dragged Plain.finish) (Plain.wheel 120) None
           eq_refl eq_refl).
Defined.
